(** * ORDER-SERVICE: token validation, permission guard, order creation
      and order listing

    A shallow embedding of [app/core/security.py], [app/core/config.py],
    [app/schemas/*.py], [app/db/models/*.py], [app/db/base.py],
    [app/api/v1/orders.py] and [app/api/v1/auth.py].

    Conventions.
    - Python [int] is [Z]; [str] is [string]; [Optional[T]] is [option T].
    - A Python call either returns a value or raises: [Result].
    - Instants: a JWT [exp] claim is a whole number of POSIX seconds, a
      [datetime] has microsecond resolution and is represented by its
      number of microseconds since the epoch. *)

From Stdlib Require Import ZArith List String Ascii Bool Lia DecimalString.
From Stdlib Require Import Sorting.Permutation Sorting.Sorted.
Import ListNotations.

Local Open Scope string_scope.
Local Open Scope list_scope.
Local Open Scope Z_scope.


(** ** Exceptions and results *)

(** The exception classes that reach a handler of the service. *)
Inductive Exn : Type :=
| HTTPException (status_code : Z) (detail : string)
| IntegrityError (orig : string)       (* sqlalchemy.exc.IntegrityError *)
| SQLAlchemyError (message : string)   (* any other sqlalchemy.exc error *)
| RequestException (message : string)  (* requests: transport failure *)
| AttributeError (name : string)
| RequestValidationError (errors : list (string * string)).

Inductive Result (A : Type) : Type :=
| Ok (a : A)
| Raise (e : Exn).

Arguments Ok {A} a.
Arguments Raise {A} e.

(** [starlette.status] *)
Module status.
Definition HTTP_200_OK : Z := 200.
Definition HTTP_201_CREATED : Z := 201.
Definition HTTP_400_BAD_REQUEST : Z := 400.
Definition HTTP_401_UNAUTHORIZED : Z := 401.
Definition HTTP_403_FORBIDDEN : Z := 403.
Definition HTTP_404_NOT_FOUND : Z := 404.
Definition HTTP_500_INTERNAL_SERVER_ERROR : Z := 500.
End status.

(** ** Configuration ([app/core/config.py]) *)

(** The storage engine [SQLALCHEMY_DATABASE_URL] selects: in-memory SQLite
    when [ENV == "test"], PostgreSQL otherwise. *)
Inductive Dialect : Type := PostgreSQL | SQLite.

Module Settings.
Record t : Type := {
  JWT_SECRET_KEY : string;
  ENV : option string;
  INVENTORY_SERVICE_BASE_URL : string
}.
Definition ALGORITHM (_ : t) : string := "HS256".
Definition dialect (s : t) : Dialect :=
  match ENV s with
  | Some e => if String.eqb e "test" then SQLite else PostgreSQL
  | None => PostgreSQL
  end.
End Settings.

(** ** Token payload *)

(** The decoded claims dictionary.  A key that is absent is [None]
    ([payload.get(key)] returns [None]); the claims have the types the
    issuer and [tests/test_security.py] give them. *)
Module Payload.
Record t : Type := {
  username : option string;
  user_id : option Z;
  roles : option (list string);
  permissions : option (list string);
  exp : option Z
}.
End Payload.

(** [fastapi.security.HTTPAuthorizationCredentials] *)
Module HTTPAuthorizationCredentials.
Record t : Type := { scheme : string; credentials : string }.
End HTTPAuthorizationCredentials.

(** [datetime.fromtimestamp(ts, timezone.utc)], in microseconds. *)
Definition datetime_fromtimestamp (ts : Z) : Z := ts * 1000000.

(** Python truthiness of a [str]. *)
Definition str_bool (s : string) : bool :=
  match s with EmptyString => false | _ => true end.

Definition is_None {A : Type} (o : option A) : bool :=
  match o with None => true | Some _ => false end.

(** [x in xs] for a list of strings, and [any]. *)
Definition py_in (x : string) (xs : list string) : bool :=
  existsb (String.eqb x) xs.

Definition any {A : Type} (f : A -> bool) (xs : list A) : bool := existsb f xs.

(** [dict.get(key, default)] on a claim. *)
Definition get_default {A : Type} (o : option A) (d : A) : A :=
  match o with Some v => v | None => d end.

Section Security.

Variable settings : Settings.t.

(** [jose.jwt.decode(token, key, algorithms)] read at clock value [now]:
    [None] stands for a raised [JWTError] (bad signature, malformed
    token, a registered claim the library itself rejects). *)
Variable jwt_decode : string -> string -> list string -> Z -> option Payload.t.

(** [validate_token]: [now] is [datetime.now(timezone.utc)]. *)
Definition validate_token
    (credentials : option HTTPAuthorizationCredentials.t) (now : Z)
  : Result Payload.t :=
  match credentials with
  | None =>
      Raise (HTTPException status.HTTP_401_UNAUTHORIZED "Not authenticated")
  | Some c =>
      if negb (str_bool (HTTPAuthorizationCredentials.credentials c)) then
        Raise (HTTPException status.HTTP_401_UNAUTHORIZED "Not authenticated")
      else
        let authorization_token := HTTPAuthorizationCredentials.credentials c in
        match jwt_decode authorization_token
                (Settings.JWT_SECRET_KEY settings)
                [Settings.ALGORITHM settings] now with
        | None =>
            Raise (HTTPException status.HTTP_401_UNAUTHORIZED
                     "Token is invalid or expired.")
        | Some payload =>
            let username := Payload.username payload in
            let user_id := Payload.user_id payload in
            let exp_timestamp := Payload.exp payload in
            if match exp_timestamp with
               | None => true
               | Some ts => datetime_fromtimestamp ts <? now
               end
            then
              Raise (HTTPException status.HTTP_401_UNAUTHORIZED "Token expired")
            else if is_None username || is_None user_id then
              Raise (HTTPException status.HTTP_401_UNAUTHORIZED
                       "Token payload is invalid.")
            else Ok payload
        end
  end.

(** [check_permissions(required_permissions)] returns the closure
    [permission_checker]; [check_permissions required payload] is that
    closure applied to the payload its dependency produced. *)
Definition check_permissions
    (required_permissions : list string) (payload : Payload.t) : Result unit :=
  let user_permissions := get_default (Payload.permissions payload) [] in
  if negb (any (fun permission => py_in permission user_permissions)
             required_permissions)
  then
    Raise (HTTPException status.HTTP_403_FORBIDDEN
             "Operation not permitted because of insufficient permissions")
  else Ok tt.

Definition check_roles
    (required_roles : list string) (payload : Payload.t) : Result unit :=
  let user_roles := get_default (Payload.roles payload) [] in
  if negb (any (fun role => py_in role user_roles) required_roles)
  then
    Raise (HTTPException status.HTTP_403_FORBIDDEN
             "Operation not permitted because of insufficient roles")
  else Ok tt.

(** [Depends(check_permissions(required))]: FastAPI first resolves the
    sub-dependency [validate_token], then calls [permission_checker]. *)
Definition permission_dependency
    (required_permissions : list string)
    (credentials : option HTTPAuthorizationCredentials.t) (now : Z)
  : Result unit :=
  match validate_token credentials now with
  | Raise e => Raise e
  | Ok payload => check_permissions required_permissions payload
  end.

End Security.

(** The permission lists the three routes of [orders.py] declare. *)
Definition create_order_permissions : list string :=
  ["manage_orders_ORDER_SERVICE"].
Definition read_all_orders_permissions : list string :=
  ["manage_orders_ORDER_SERVICE"; "view_orders_ORDER_SERVICE"].
Definition read_order_permissions : list string :=
  ["manage_orders_ORDER_SERVICE"; "view_orders_ORDER_SERVICE"].

(** The exception [permission_checker] raises. *)
Definition Forbidden : Exn :=
  HTTPException 403 "Operation not permitted because of insufficient permissions".

(** ** Request schemas ([app/schemas]) *)

Module OrderLineCreateRequest.
Record t : Type := { item_id : Z; quantity : Z }.
End OrderLineCreateRequest.

Module OrderHeaderCreateRequest.
Record t : Type := {
  user_id : Z;
  total_items : option Z;
  order_lines : list OrderLineCreateRequest.t
}.
End OrderHeaderCreateRequest.

(** One entry of a pydantic [ValidationError]: the field and the message. *)
Definition ValidationError : Type := (string * string)%type.

(** [Field(..., gt=0)] *)
Definition field_gt0 (name : string) (v : Z) : list ValidationError :=
  if 0 <? v then [] else [(name, "Input should be greater than 0")].

(** [Field(None, gt=0)]: the constraint applies to a supplied value only. *)
Definition optional_field_gt0 (name : string) (v : option Z)
  : list ValidationError :=
  match v with None => [] | Some x => field_gt0 name x end.

Definition OrderLineCreateRequest_validate (l : OrderLineCreateRequest.t)
  : list ValidationError :=
  field_gt0 "item_id" (OrderLineCreateRequest.item_id l)
  ++ field_gt0 "quantity" (OrderLineCreateRequest.quantity l).

(** The [field_validator("order_lines")] of [OrderHeaderCreateRequest]:
    the raised [ValueError] becomes one validation error. *)
Definition check_list_items_not_empty (v : list OrderLineCreateRequest.t)
  : list ValidationError :=
  if Z.of_nat (List.length v) <? 1 then
    [("order_lines", "order_lines list must contain at least one item")]
  else [].

(** Validation of the whole body.  The after-validator of [order_lines]
    runs once the items themselves have validated. *)
Definition OrderHeaderCreateRequest_validate (r : OrderHeaderCreateRequest.t)
  : list ValidationError :=
  field_gt0 "user_id" (OrderHeaderCreateRequest.user_id r)
  ++ optional_field_gt0 "total_items" (OrderHeaderCreateRequest.total_items r)
  ++ match flat_map OrderLineCreateRequest_validate
             (OrderHeaderCreateRequest.order_lines r) with
     | [] => check_list_items_not_empty (OrderHeaderCreateRequest.order_lines r)
     | item_errors => item_errors
     end.

(** ** Tables ([app/db/models]) *)

Module OrderHeader.
Record t : Type := {
  order_id : Z;
  user_id : Z;
  total_items : Z;
  created_at : Z;
  updated_at : option Z
}.
(** The object [OrderHeader(user_id=..., total_items=...)] before the
    database has filled in [order_id] and [created_at]. *)
Record transient : Type := { new_user_id : Z; new_total_items : Z }.
End OrderHeader.

Module OrderLine.
Record t : Type := {
  order_id : Z;
  line_number : Z;
  item_id : Z;
  quantity : Z;
  created_at : Z;
  updated_at : option Z
}.
(** The object [OrderLine(order_id=..., line_number=..., item_id=...,
    quantity=...)] before its insertion. *)
Record transient : Type := {
  new_order_id : Z;
  new_line_number : Z;
  new_item_id : Z;
  new_quantity : Z
}.
(** [PrimaryKeyConstraint("order_id", "line_number")] *)
Definition has_key (l : transient) (row : t) : bool :=
  (order_id row =? new_order_id l) && (line_number row =? new_line_number l).
End OrderLine.

(** The stored state: both tables in insertion order and the generator of
    [order_headers.order_id] ([autoincrement=True]), which a rollback does
    not rewind. *)
Module Database.
Record t : Type := {
  order_headers : list OrderHeader.t;
  order_lines : list OrderLine.t;
  order_id_seq : Z
}.
Definition empty : t :=
  {| order_headers := []; order_lines := []; order_id_seq := 1 |}.
End Database.

(** A [Session] created with [autocommit=False, autoflush=False]: the
    committed database, the rows the open transaction has inserted, and the
    objects handed to [db.add] that no flush has sent yet. *)
Module Session.
Record t : Type := {
  database : Database.t;
  tx_headers : list OrderHeader.t;
  tx_lines : list OrderLine.t;
  new_headers : list OrderHeader.transient;
  new_lines : list OrderLine.transient
}.
(** [SessionLocal()] *)
Definition open (d : Database.t) : t :=
  {| database := d; tx_headers := []; tx_lines := [];
     new_headers := []; new_lines := [] |}.
(** Rows the open transaction sees. *)
Definition visible_headers (s : t) : list OrderHeader.t :=
  Database.order_headers (database s) ++ tx_headers s.
Definition visible_lines (s : t) : list OrderLine.t :=
  Database.order_lines (database s) ++ tx_lines s.
End Session.

(** ** Outbound inventory calls *)

(** [requests.patch(f"{base}/items/{item_id}?change_quantity={quantity}",
    headers={"Authorization": ...})] *)
Module PatchCall.
Record t : Type := {
  base_url : string;
  item_id : Z;
  change_quantity : Z;
  authorization : option string
}.
End PatchCall.

(** What a call produces: a response with its status code, or an
    exception of [requests] (no response at all). *)
Inductive Outcome : Type :=
| Responded (status_code : Z)
| ConnectionFailed (message : string).

(** The inventory service, seen from this service: its answer to a call
    after the calls already issued to it. *)
Definition InventoryService : Type := list PatchCall.t -> PatchCall.t -> Outcome.

(** ** The handler monad: session state, trace of outbound calls,
       exceptions that leave the state as it is when they are raised *)

Module World.
Record t : Type := {
  session : Session.t;
  outbound : list PatchCall.t
}.
End World.

Definition M (A : Type) : Type := World.t -> Result A * World.t.

Definition ret {A : Type} (a : A) : M A := fun w => (Ok a, w).

Definition raise {A : Type} (e : Exn) : M A := fun w => (Raise e, w).

Definition bind {A B : Type} (c : M A) (k : A -> M B) : M B :=
  fun w =>
    match c w with
    | (Ok a, w') => k a w'
    | (Raise e, w') => (Raise e, w')
    end.

(** [try: c  except ...: handler] *)
Definition try_except {A : Type} (c : M A) (handler : Exn -> M A) : M A :=
  fun w =>
    match c w with
    | (Ok a, w') => (Ok a, w')
    | (Raise e, w') => handler e w'
    end.

Declare Scope handler_scope.
Delimit Scope handler_scope with handler.
Notation "x <- c ;; k" := (bind c (fun x => k))
  (at level 61, c at next level, right associativity) : handler_scope.
Notation "c ;; k" := (bind c (fun _ => k))
  (at level 61, right associativity) : handler_scope.

Local Open Scope handler_scope.

Definition modify_session (f : Session.t -> Session.t) : M unit :=
  fun w =>
    (Ok tt, {| World.session := f (World.session w);
               World.outbound := World.outbound w |}).

(** [for index, item in enumerate(xs): body(index, item)], from [index]. *)
Fixpoint for_enumerate {A : Type} (body : Z -> A -> M unit)
    (index : Z) (xs : list A) : M unit :=
  match xs with
  | [] => ret tt
  | x :: rest => body index x ;; for_enumerate body (index + 1) rest
  end.

(** ** Session operations (SQLAlchemy, on the tables above) *)

Module Db.
Import Session.

(** [db.add(obj)] *)
Definition add_header (h : OrderHeader.transient) (s : t) : t :=
  {| database := database s; tx_headers := tx_headers s;
     tx_lines := tx_lines s;
     new_headers := new_headers s ++ [h]; new_lines := new_lines s |}.

Definition add_line (l : OrderLine.transient) (s : t) : t :=
  {| database := database s; tx_headers := tx_headers s;
     tx_lines := tx_lines s;
     new_headers := new_headers s; new_lines := new_lines s ++ [l] |}.

(** INSERT of one header: the key comes from the sequence, which
    advances whether or not the row is accepted
    ([primary_key=True, autoincrement=True]). *)
Definition insert_header (now : Z) (h : OrderHeader.transient) (s : t)
  : Result Z * t :=
  let key := Database.order_id_seq (database s) in
  let d := {| Database.order_headers := Database.order_headers (database s);
              Database.order_lines := Database.order_lines (database s);
              Database.order_id_seq := key + 1 |} in
  if existsb (fun row => OrderHeader.order_id row =? key) (visible_headers s)
  then
    (Raise (IntegrityError "order_headers_pkey"),
     {| database := d; tx_headers := tx_headers s; tx_lines := tx_lines s;
        new_headers := new_headers s; new_lines := new_lines s |})
  else
    (Ok key,
     {| database := d;
        tx_headers := tx_headers s ++
          [{| OrderHeader.order_id := key;
              OrderHeader.user_id := OrderHeader.new_user_id h;
              OrderHeader.total_items := OrderHeader.new_total_items h;
              OrderHeader.created_at := now;
              OrderHeader.updated_at := None |}];
        tx_lines := tx_lines s;
        new_headers := new_headers s; new_lines := new_lines s |}).

(** INSERT of one line: primary key [pk_order_line], then the foreign
    key to [order_headers.order_id]. *)
Definition insert_line (now : Z) (l : OrderLine.transient) (s : t)
  : Result unit * t :=
  if existsb (OrderLine.has_key l) (visible_lines s) then
    (Raise (IntegrityError "pk_order_line"), s)
  else if negb (existsb
                  (fun row => OrderHeader.order_id row =? OrderLine.new_order_id l)
                  (visible_headers s)) then
    (Raise (IntegrityError "order_lines_order_id_fkey"), s)
  else
    (Ok tt,
     {| database := database s; tx_headers := tx_headers s;
        tx_lines := tx_lines s ++
          [{| OrderLine.order_id := OrderLine.new_order_id l;
              OrderLine.line_number := OrderLine.new_line_number l;
              OrderLine.item_id := OrderLine.new_item_id l;
              OrderLine.quantity := OrderLine.new_quantity l;
              OrderLine.created_at := now;
              OrderLine.updated_at := None |}];
        new_headers := new_headers s; new_lines := new_lines s |}).

Fixpoint insert_headers (now : Z) (pending : list OrderHeader.transient)
    (keys : list Z) (s : t) : Result (list Z) * t :=
  match pending with
  | [] => (Ok keys, s)
  | h :: rest =>
      match insert_header now h s with
      | (Ok key, s') => insert_headers now rest (keys ++ [key]) s'
      | (Raise e, s') => (Raise e, s')
      end
  end.

Fixpoint insert_lines (now : Z) (pending : list OrderLine.transient) (s : t)
  : Result unit * t :=
  match pending with
  | [] => (Ok tt, s)
  | l :: rest =>
      match insert_line now l s with
      | (Ok _, s') => insert_lines now rest s'
      | (Raise e, s') => (Raise e, s')
      end
  end.

Definition clear_new (s : t) : t :=
  {| database := database s; tx_headers := tx_headers s;
     tx_lines := tx_lines s; new_headers := []; new_lines := [] |}.

(** [db.flush()]: sends the pending objects, parents before children,
    and yields the keys generated for the pending headers (the ORM
    writes each into its object's [order_id]). *)
Definition flush (now : Z) (s : t) : Result (list Z) * t :=
  match insert_headers now (new_headers s) [] s with
  | (Raise e, s') => (Raise e, s')
  | (Ok keys, s') =>
      match insert_lines now (new_lines s) s' with
      | (Raise e, s'') => (Raise e, s'')
      | (Ok _, s'') => (Ok keys, clear_new s'')
      end
  end.

(** [db.rollback()]: the rows of the open transaction and the pending
    objects are dropped; the sequence keeps its value. *)
Definition rollback (s : t) : t :=
  {| database := database s; tx_headers := []; tx_lines := [];
     new_headers := []; new_lines := [] |}.

(** [db.commit()]: flush, then the transaction's rows become durable. *)
Definition commit (now : Z) (s : t) : Result unit * t :=
  match flush now s with
  | (Raise e, s') => (Raise e, s')
  | (Ok _, s') =>
      (Ok tt,
       {| database :=
            {| Database.order_headers := visible_headers s';
               Database.order_lines := visible_lines s';
               Database.order_id_seq := Database.order_id_seq (database s') |};
          tx_headers := []; tx_lines := [];
          new_headers := new_headers s'; new_lines := new_lines s' |})
  end.

(** [db.close()] in [get_db]: whatever is uncommitted is discarded and
    the stored database is what remains. *)
Definition close (s : t) : Database.t := database (rollback s).

(** [db.execute(select(OrderHeader).where(OrderHeader.order_id == key))
    .scalars().first()] *)
Definition first_header (key : Z) (s : t) : option OrderHeader.t :=
  find (fun row => OrderHeader.order_id row =? key) (visible_headers s).
End Db.

(** The session operations as steps of a handler. *)
Definition db_step {A : Type} (op : Session.t -> Result A * Session.t) : M A :=
  fun w =>
    let (r, s) := op (World.session w) in
    (r, {| World.session := s; World.outbound := World.outbound w |}).

Definition db_add_header (h : OrderHeader.transient) : M unit :=
  modify_session (Db.add_header h).
Definition db_add_line (l : OrderLine.transient) : M unit :=
  modify_session (Db.add_line l).
Definition db_flush (now : Z) : M (list Z) := db_step (Db.flush now).
Definition db_rollback : M unit := modify_session Db.rollback.
Definition db_commit (now : Z) : M unit := db_step (Db.commit now).
Definition db_first_header (key : Z) : M (option OrderHeader.t) :=
  fun w => (Ok (Db.first_header key (World.session w)), w).

(** ** [create_order] ([app/api/v1/orders.py]) *)

Record CreateOrderResponse : Type := { message : string; order : Z }.

Section Orders.

Variable settings : Settings.t.
Variable inventory : InventoryService.

(** [requests.patch]: the call is recorded and the service answers. *)
Definition requests_patch (call : PatchCall.t) : M Z :=
  fun w =>
    let w' := {| World.session := World.session w;
                 World.outbound := World.outbound w ++ [call] |} in
    match inventory (World.outbound w) call with
    | Responded status_code => (Ok status_code, w')
    | ConnectionFailed m => (Raise (RequestException m), w')
    end.

Definition patch_call (authorization : option string)
    (item : OrderLineCreateRequest.t) : PatchCall.t :=
  {| PatchCall.base_url := Settings.INVENTORY_SERVICE_BASE_URL settings;
     PatchCall.item_id := OrderLineCreateRequest.item_id item;
     PatchCall.change_quantity := OrderLineCreateRequest.quantity item;
     PatchCall.authorization := authorization |}.

(** The body of the [for] loop over [enumerate(order_request.order_lines)]. *)
Definition create_order_line (authorization : option string)
    (new_order_id : Z) (index : Z) (item : OrderLineCreateRequest.t) : M unit :=
  let order_line :=
    {| OrderLine.new_order_id := new_order_id;
       OrderLine.new_line_number := index + 1;
       OrderLine.new_item_id := OrderLineCreateRequest.item_id item;
       OrderLine.new_quantity := OrderLineCreateRequest.quantity item |} in
  db_add_line order_line ;;
  response_status_code <- requests_patch (patch_call authorization item) ;;
  if negb (response_status_code =? 200) then
    db_rollback ;;
    raise (HTTPException 400 "Failed to update item quantity")
  else ret tt.

(** The [try] block.  [now] is the database server's [func.now()] for
    the transaction. *)
Definition create_order_try (now : Z)
    (order_request : OrderHeaderCreateRequest.t)
    (authorization : option string) : M CreateOrderResponse :=
  let new_order :=
    {| OrderHeader.new_user_id := OrderHeaderCreateRequest.user_id order_request;
       OrderHeader.new_total_items :=
         Z.of_nat (List.length (OrderHeaderCreateRequest.order_lines order_request)) |} in
  db_add_header new_order ;;
  keys <- db_flush now ;;
  (* [new_order.order_id]: [new_order] is the only header pending *)
  let new_order_id := hd 0 keys in
  for_enumerate (create_order_line authorization new_order_id) 0
    (OrderHeaderCreateRequest.order_lines order_request) ;;
  db_commit now ;;
  order_header_result <- db_first_header new_order_id ;;
  match order_header_result with
  | None =>
      raise (HTTPException status.HTTP_500_INTERNAL_SERVER_ERROR
               "Failed to fetch the committed order.")
  | Some row =>
      ret {| message := "Order created successfully";
             order := OrderHeader.order_id row |}
  end.

(** The [except] clauses, in their order. *)
Definition create_order_except {A : Type} (e : Exn) : M A :=
  match e with
  | IntegrityError orig =>
      raise (HTTPException status.HTTP_400_BAD_REQUEST orig)
  | SQLAlchemyError _ =>
      raise (HTTPException status.HTTP_500_INTERNAL_SERVER_ERROR
               "An error occurred while processing the checkout.")
  | HTTPException status_code detail =>
      raise (HTTPException status_code detail)
  | _ =>
      raise (HTTPException status.HTTP_500_INTERNAL_SERVER_ERROR
               "An error occurred while processing the checkout.")
  end.

Definition create_order (now : Z)
    (order_request : OrderHeaderCreateRequest.t)
    (authorization : option string) : M CreateOrderResponse :=
  try_except (create_order_try now order_request authorization)
    create_order_except.

(** What a request leaves behind: the handler's result, the stored
    database once [get_db] has closed the session, and the outbound
    calls in the order they were issued. *)
Definition run_with_db {A : Type} (d : Database.t) (handler : M A)
  : Result A * Database.t * list PatchCall.t :=
  let (r, w) := handler {| World.session := Session.open d;
                           World.outbound := [] |} in
  (r, Db.close (World.session w), World.outbound w).

(** The route after its dependencies: the body is validated against
    [OrderHeaderCreateRequest]; [create_order] runs on a valid body only. *)
Definition post_orders (now : Z) (d : Database.t)
    (body : OrderHeaderCreateRequest.t) (authorization : option string)
  : Result CreateOrderResponse * Database.t * list PatchCall.t :=
  match OrderHeaderCreateRequest_validate body with
  | [] => run_with_db d (create_order now body authorization)
  | errors => (Raise (RequestValidationError errors), d, [])
  end.

(** The answers the service gives when [calls] are issued one after the
    other, after [history]. *)
Fixpoint replay (history : list PatchCall.t) (calls : list PatchCall.t)
  : list Outcome :=
  match calls with
  | [] => []
  | c :: rest => inventory history c :: replay (history ++ [c]) rest
  end.

End Orders.

(** ** [read_all_orders] and [read_order] *)

(** [str.lower()].  Only the letters [A]..[Z] are mapped; no other
    character lowers to a letter of an allowed column name. *)
Definition ascii_lower (c : ascii) : ascii :=
  let n := nat_of_ascii c in
  if ((65 <=? n) && (n <=? 90))%nat then ascii_of_nat (n + 32) else c.

Fixpoint lower (s : string) : string :=
  match s with
  | EmptyString => EmptyString
  | String c rest => String (ascii_lower c) (lower rest)
  end.

(** The columns of [OrderHeader] a listing can be ordered by. *)
Inductive Column : Type := col_order_id | col_total_items | col_created_at.

Definition allowed_columns : list string :=
  ["order_id"; "total_items"; "created_at"].

(** [getattr(OrderHeader, name)] for the names that reach it. *)
Definition getattr_OrderHeader (name : string) : option Column :=
  if String.eqb name "order_id" then Some col_order_id
  else if String.eqb name "total_items" then Some col_total_items
  else if String.eqb name "created_at" then Some col_created_at
  else None.

Definition column_value (c : Column) (row : OrderHeader.t) : Z :=
  match c with
  | col_order_id => OrderHeader.order_id row
  | col_total_items => OrderHeader.total_items row
  | col_created_at => OrderHeader.created_at row
  end.

(** A [select(OrderHeader)] statement with its optional clauses. *)
Module Select.
Record t : Type := {
  order_by : option (Column * bool);   (* column, ascending? *)
  limit : option Z
}.
Definition all : t := {| order_by := None; limit := None |}.
Definition with_order_by (c : Column) (ascending : bool) (stmt : t) : t :=
  {| order_by := Some (c, ascending); limit := limit stmt |}.
Definition with_limit (n : Z) (stmt : t) : t :=
  {| order_by := order_by stmt; limit := Some n |}.
End Select.

(** ORDER BY as a stable insertion sort of the stored rows: rows with
    equal values keep their stored order. *)
Definition row_le (c : Column) (ascending : bool) (a b : OrderHeader.t) : bool :=
  if ascending then column_value c a <=? column_value c b
  else column_value c b <=? column_value c a.

Fixpoint insert_row (le : OrderHeader.t -> OrderHeader.t -> bool)
    (x : OrderHeader.t) (l : list OrderHeader.t) : list OrderHeader.t :=
  match l with
  | [] => [x]
  | y :: rest => if le x y then x :: l else y :: insert_row le x rest
  end.

Definition sort_rows (le : OrderHeader.t -> OrderHeader.t -> bool)
    (l : list OrderHeader.t) : list OrderHeader.t :=
  fold_right (insert_row le) [] l.

(** LIMIT: a negative count is an error in PostgreSQL and means no limit
    in SQLite. *)
Definition apply_limit (dialect : Dialect) (n : Z) (rows : list OrderHeader.t)
  : Result (list OrderHeader.t) :=
  if n <? 0 then
    match dialect with
    | PostgreSQL => Raise (SQLAlchemyError "LIMIT must not be negative")
    | SQLite => Ok rows
    end
  else Ok (firstn (Z.to_nat n) rows).

(** [db.execute(stmt).scalars().all()] *)
Definition execute_select (dialect : Dialect) (stmt : Select.t)
    (rows : list OrderHeader.t) : Result (list OrderHeader.t) :=
  let ordered :=
    match Select.order_by stmt with
    | None => rows
    | Some (c, ascending) => sort_rows (row_le c ascending) rows
    end in
  match Select.limit stmt with
  | None => Ok ordered
  | Some n => apply_limit dialect n ordered
  end.

Section Reads.

Variable settings : Settings.t.

(** The name the listing orders by, after the default and the
    allow-list. *)
Definition effective_order_by (order_by : option string) : string :=
  let order_by := match order_by with None => "order_id" | Some s => s end in
  if py_in (lower order_by) allowed_columns then lower order_by
  else "order_id".

Definition read_all_orders_try (d : Database.t) (limit : option Z)
    (order_by : option string) (ascending : bool)
  : Result (list OrderHeader.t) :=
  let stmt := Select.all in
  let order_by := effective_order_by order_by in
  match getattr_OrderHeader order_by with
  | None => Raise (AttributeError order_by)
  | Some order_column =>
      (* [if order_column:] a mapped attribute is truthy *)
      let stmt := Select.with_order_by order_column ascending stmt in
      let stmt :=
        match limit with
        | Some n => Select.with_limit n stmt
        | None => stmt
        end in
      execute_select (Settings.dialect settings) stmt
        (Database.order_headers d)
  end.

Definition read_all_orders_except {A : Type} (e : Exn) : Result A :=
  match e with
  | IntegrityError orig =>
      Raise (HTTPException status.HTTP_400_BAD_REQUEST orig)
  | _ =>
      Raise (HTTPException status.HTTP_500_INTERNAL_SERVER_ERROR
               "An error occurred while fetching all orders.")
  end.

Definition read_all_orders (d : Database.t) (limit : option Z)
    (order_by : option string) (ascending : bool)
  : Result (list OrderHeader.t) :=
  match read_all_orders_try d limit order_by ascending with
  | Ok rows => Ok rows
  | Raise e => read_all_orders_except e
  end.

(** The listing a request for column [c] is expected to produce. *)
Definition listing (d : Database.t) (c : Column) (ascending : bool)
    (limit : option Z) : Result (list OrderHeader.t) :=
  execute_select (Settings.dialect settings)
    {| Select.order_by := Some (c, ascending); Select.limit := limit |}
    (Database.order_headers d).

End Reads.

(** ** Invariant of the stored database *)

(** The sequence is ahead of every stored key: what [autoincrement]
    maintains, and what makes the next generated [order_id] fresh. *)
Definition sequence_ahead (d : Database.t) : Prop :=
  Forall (fun row => OrderHeader.order_id row < Database.order_id_seq d)
    (Database.order_headers d)
  /\ Forall (fun row => OrderLine.order_id row < Database.order_id_seq d)
       (Database.order_lines d).

(** The pending line objects and the rows they become, for the items of a
    request numbered from [index + 1]. *)
Fixpoint transient_lines (new_order_id index : Z)
    (items : list OrderLineCreateRequest.t) : list OrderLine.transient :=
  match items with
  | [] => []
  | item :: rest =>
      {| OrderLine.new_order_id := new_order_id;
         OrderLine.new_line_number := index + 1;
         OrderLine.new_item_id := OrderLineCreateRequest.item_id item;
         OrderLine.new_quantity := OrderLineCreateRequest.quantity item |}
      :: transient_lines new_order_id (index + 1) rest
  end.

Fixpoint line_rows (now new_order_id index : Z)
    (items : list OrderLineCreateRequest.t) : list OrderLine.t :=
  match items with
  | [] => []
  | item :: rest =>
      {| OrderLine.order_id := new_order_id;
         OrderLine.line_number := index + 1;
         OrderLine.item_id := OrderLineCreateRequest.item_id item;
         OrderLine.quantity := OrderLineCreateRequest.quantity item;
         OrderLine.created_at := now;
         OrderLine.updated_at := None |}
      :: line_rows now new_order_id (index + 1) rest
  end.

(** A world from its two parts, and a session with further pending
    line objects. *)
Definition world (s : Session.t) (calls : list PatchCall.t) : World.t :=
  {| World.session := s; World.outbound := calls |}.

Definition pending (s : Session.t) (lines : list OrderLine.transient)
  : Session.t :=
  {| Session.database := Session.database s;
     Session.tx_headers := Session.tx_headers s;
     Session.tx_lines := Session.tx_lines s;
     Session.new_headers := Session.new_headers s;
     Session.new_lines := Session.new_lines s ++ lines |}.

(** The session once the header of a request has been flushed, and a
    session with further inserted line rows. *)
Definition staged (now : Z) (d : Database.t) (h : OrderHeader.transient)
  : Session.t :=
  {| Session.database :=
       {| Database.order_headers := Database.order_headers d;
          Database.order_lines := Database.order_lines d;
          Database.order_id_seq := Database.order_id_seq d + 1 |};
     Session.tx_headers :=
       [{| OrderHeader.order_id := Database.order_id_seq d;
           OrderHeader.user_id := OrderHeader.new_user_id h;
           OrderHeader.total_items := OrderHeader.new_total_items h;
           OrderHeader.created_at := now;
           OrderHeader.updated_at := None |}];
     Session.tx_lines := [];
     Session.new_headers := [];
     Session.new_lines := [] |}.

Definition inserted (s : Session.t) (rows : list OrderLine.t) : Session.t :=
  {| Session.database := Session.database s;
     Session.tx_headers := Session.tx_headers s;
     Session.tx_lines := Session.tx_lines s ++ rows;
     Session.new_headers := Session.new_headers s;
     Session.new_lines := Session.new_lines s |}.

(** The header object [create_order] builds for a request, and the
    database a fully accepted request leaves. *)
Definition new_order (order_request : OrderHeaderCreateRequest.t)
  : OrderHeader.transient :=
  {| OrderHeader.new_user_id := OrderHeaderCreateRequest.user_id order_request;
     OrderHeader.new_total_items :=
       Z.of_nat (List.length (OrderHeaderCreateRequest.order_lines order_request)) |}.

Definition header_row (now : Z) (d : Database.t)
    (order_request : OrderHeaderCreateRequest.t) : OrderHeader.t :=
  {| OrderHeader.order_id := Database.order_id_seq d;
     OrderHeader.user_id := OrderHeaderCreateRequest.user_id order_request;
     OrderHeader.total_items :=
       Z.of_nat (List.length (OrderHeaderCreateRequest.order_lines order_request));
     OrderHeader.created_at := now;
     OrderHeader.updated_at := None |}.

Definition committed (now : Z) (d : Database.t)
    (order_request : OrderHeaderCreateRequest.t) : Database.t :=
  {| Database.order_headers :=
       Database.order_headers d ++ [header_row now d order_request];
     Database.order_lines :=
       Database.order_lines d
       ++ line_rows now (Database.order_id_seq d) 0
            (OrderHeaderCreateRequest.order_lines order_request);
     Database.order_id_seq := Database.order_id_seq d + 1 |}.

(** The database after a rolled back request: the rows are those of
    before, the sequence has moved on. *)
Definition rolled_back (d : Database.t) : Database.t :=
  {| Database.order_headers := Database.order_headers d;
     Database.order_lines := Database.order_lines d;
     Database.order_id_seq := Database.order_id_seq d + 1 |}.

(** ** Concrete scenarios *)

Module Scenario.

Definition settings : Settings.t :=
  {| Settings.JWT_SECRET_KEY := "secret";
     Settings.ENV := None;
     Settings.INVENTORY_SERVICE_BASE_URL := "http://localhost:8002" |}.

Definition test_settings : Settings.t :=
  {| Settings.JWT_SECRET_KEY := "secret";
     Settings.ENV := Some "test";
     Settings.INVENTORY_SERVICE_BASE_URL := "http://localhost:8002" |}.

(** The payload of [test_validate_token_valid], expiring at second
    1700000900. *)
Definition testuser : Payload.t :=
  {| Payload.username := Some "testuser";
     Payload.user_id := Some 1;
     Payload.roles := Some ["admin"];
     Payload.permissions := Some ["read"; "write"];
     Payload.exp := Some 1700000900 |}.

Definition manager : Payload.t :=
  {| Payload.username := Some "manager";
     Payload.user_id := Some 2;
     Payload.roles := Some ["Manager"];
     Payload.permissions := Some ["manage_orders_ORDER_SERVICE"];
     Payload.exp := Some 1700000900 |}.

(** A token whose permission is spelled without the service suffix. *)
Definition plain_manager : Payload.t :=
  {| Payload.username := Some "manager";
     Payload.user_id := Some 2;
     Payload.roles := Some ["Manager"];
     Payload.permissions := Some ["manage_orders"];
     Payload.exp := Some 1700000900 |}.

(** A token without a [permissions] claim. *)
Definition bare : Payload.t :=
  {| Payload.username := Some "guest";
     Payload.user_id := Some 3;
     Payload.roles := None;
     Payload.permissions := None;
     Payload.exp := Some 1700000900 |}.

(** A token without an [exp] claim. *)
Definition eternal : Payload.t :=
  {| Payload.username := Some "testuser";
     Payload.user_id := Some 1;
     Payload.roles := Some ["admin"];
     Payload.permissions := Some ["read"; "write"];
     Payload.exp := None |}.

(** A decoder that knows four tokens by name and rejects the rest. *)
Definition jwt_decode (token key : string) (algorithms : list string)
    (now : Z) : option Payload.t :=
  if String.eqb token "testuser" then Some testuser
  else if String.eqb token "manager" then Some manager
  else if String.eqb token "plain_manager" then Some plain_manager
  else if String.eqb token "bare" then Some bare
  else if String.eqb token "eternal" then Some eternal
  else None.

Definition bearer (token : string) : option HTTPAuthorizationCredentials.t :=
  Some {| HTTPAuthorizationCredentials.scheme := "Bearer";
          HTTPAuthorizationCredentials.credentials := token |}.

(** Instants, in microseconds: before, at and after second 1700000900. *)
Definition before_expiry : Z := 1700000000000000.
Definition at_expiry : Z := 1700000900000000.
Definition after_expiry : Z := 1700000900000001.

Definition item (item_id quantity : Z) : OrderLineCreateRequest.t :=
  {| OrderLineCreateRequest.item_id := item_id;
     OrderLineCreateRequest.quantity := quantity |}.

Definition order (total_items : option Z)
    (lines : list OrderLineCreateRequest.t) : OrderHeaderCreateRequest.t :=
  {| OrderHeaderCreateRequest.user_id := 123;
     OrderHeaderCreateRequest.total_items := total_items;
     OrderHeaderCreateRequest.order_lines := lines |}.

(** The example order of the handler's docstring. *)
Definition two_lines : OrderHeaderCreateRequest.t :=
  order (Some 2) [item 456 2; item 789 1].

Definition three_lines : OrderHeaderCreateRequest.t :=
  order (Some 3) [item 456 2; item 789 1; item 321 5].

(** Inventory services: one that accepts every change, one that
    rejects a given item with 409, one that cannot be reached for a
    given item. *)
Definition accepts_all : InventoryService := fun _ _ => Responded 200.

Definition rejects (item_id : Z) : InventoryService :=
  fun _ call =>
    if PatchCall.item_id call =? item_id then Responded 409 else Responded 200.

Definition unreachable_for (item_id : Z) : InventoryService :=
  fun _ call =>
    if PatchCall.item_id call =? item_id
    then ConnectionFailed "connection refused" else Responded 200.

Definition header (order_id total_items created_at : Z) : OrderHeader.t :=
  {| OrderHeader.order_id := order_id;
     OrderHeader.user_id := 123;
     OrderHeader.total_items := total_items;
     OrderHeader.created_at := created_at;
     OrderHeader.updated_at := None |}.

Definition line (order_id line_number item_id quantity created_at : Z)
  : OrderLine.t :=
  {| OrderLine.order_id := order_id;
     OrderLine.line_number := line_number;
     OrderLine.item_id := item_id;
     OrderLine.quantity := quantity;
     OrderLine.created_at := created_at;
     OrderLine.updated_at := None |}.

(** A stored database with two orders; the older one has more lines. *)
Definition stored : Database.t :=
  {| Database.order_headers := [header 1 2 100; header 2 1 200];
     Database.order_lines :=
       [line 1 1 456 2 100; line 1 2 789 1 100; line 2 1 321 5 200];
     Database.order_id_seq := 3 |}.

Definition authorization : option string := Some "Bearer manager".

End Scenario.

(** ** [read_order] and the response models *)

(** [str(n)] for an [int]. *)
Definition py_str (n : Z) : string := NilZero.string_of_int (Z.to_int n).

Module OrderLineReadRequest.
Record t : Type := {
  order_id : Z;
  line_number : Z;
  item_id : Z;
  quantity : Z;
  created_at : Z;
  updated_at : option Z
}.
End OrderLineReadRequest.

Module OrderHeaderReadRequest.
Record t : Type := {
  order_id : Z;
  user_id : Z;
  total_items : Z;
  created_at : Z;
  updated_at : option Z;
  order_lines : list OrderLineReadRequest.t
}.
End OrderHeaderReadRequest.

(** The relationship [OrderHeader.order_lines]: the stored lines whose
    [order_id] is the header's, in stored order. *)
Definition relationship_order_lines (d : Database.t) (header : OrderHeader.t)
  : list OrderLine.t :=
  filter (fun row => OrderLine.order_id row =? OrderHeader.order_id header)
    (Database.order_lines d).

(** [response_model=OrderHeaderReadRequest] with [from_attributes]. *)
Definition OrderLineReadRequest_from (row : OrderLine.t) : OrderLineReadRequest.t :=
  {| OrderLineReadRequest.order_id := OrderLine.order_id row;
     OrderLineReadRequest.line_number := OrderLine.line_number row;
     OrderLineReadRequest.item_id := OrderLine.item_id row;
     OrderLineReadRequest.quantity := OrderLine.quantity row;
     OrderLineReadRequest.created_at := OrderLine.created_at row;
     OrderLineReadRequest.updated_at := OrderLine.updated_at row |}.

Definition OrderHeaderReadRequest_from (d : Database.t) (header : OrderHeader.t)
  : OrderHeaderReadRequest.t :=
  {| OrderHeaderReadRequest.order_id := OrderHeader.order_id header;
     OrderHeaderReadRequest.user_id := OrderHeader.user_id header;
     OrderHeaderReadRequest.total_items := OrderHeader.total_items header;
     OrderHeaderReadRequest.created_at := OrderHeader.created_at header;
     OrderHeaderReadRequest.updated_at := OrderHeader.updated_at header;
     OrderHeaderReadRequest.order_lines :=
       map OrderLineReadRequest_from (relationship_order_lines d header) |}.

(** The [try] block of [read_order], on the session [get_db] opened. *)
Definition read_order_try (d : Database.t) (order_id : Z) : Result OrderHeader.t :=
  match Db.first_header order_id (Session.open d) with
  | None =>
      Raise (HTTPException status.HTTP_404_NOT_FOUND
               ("order with id " ++ py_str order_id ++ " not found.")%string)
  | Some order_model => Ok order_model
  end.

Definition read_order_except {A : Type} (order_id : Z) (e : Exn) : Result A :=
  match e with
  | IntegrityError orig =>
      Raise (HTTPException status.HTTP_400_BAD_REQUEST orig)
  | SQLAlchemyError _ =>
      Raise (HTTPException status.HTTP_500_INTERNAL_SERVER_ERROR
               ("An error occurred while fetching the order with id "
                ++ py_str order_id ++ ".")%string)
  | HTTPException status_code detail =>
      Raise (HTTPException status_code detail)
  | _ =>
      Raise (HTTPException status.HTTP_500_INTERNAL_SERVER_ERROR
               ("An error occurred while fetching the order with id "
                ++ py_str order_id ++ ".")%string)
  end.

Definition read_order (d : Database.t) (order_id : Z) : Result OrderHeader.t :=
  match read_order_try d order_id with
  | Ok order_model => Ok order_model
  | Raise e => read_order_except order_id e
  end.

(** The route GET /orders/{order_id} after its dependencies:
    [Path(gt=0)], the handler, the response model. *)
Definition get_order (d : Database.t) (order_id : Z)
  : Result OrderHeaderReadRequest.t :=
  match field_gt0 "order_id" order_id with
  | [] =>
      match read_order d order_id with
      | Ok order_model => Ok (OrderHeaderReadRequest_from d order_model)
      | Raise e => Raise e
      end
  | errors => Raise (RequestValidationError errors)
  end.

(** ** [get_access_token] ([app/api/v1/auth.py]) *)

(** The response of AUTH-SERVICE.  [json] is what [response.json()]
    gives: it raises on a body that is not JSON; on a JSON object,
    [detail] is the text of the value under "detail" when that key is
    present; [content] is the decoded body. *)
Module AuthResponse.
Inductive json_body : Type :=
| NotJson
| JsonObject (detail : option string) (content : string)
| JsonOther (content : string).
Record t : Type := { status_code : Z; json : json_body }.
End AuthResponse.

Inductive AuthOutcome : Type :=
| AuthResponded (response : AuthResponse.t)
| AuthConnectionFailed (message : string).

(** [requests.post(auth_service_url, data=payload, headers=headers)] *)
Module TokenRequest.
Record t : Type := {
  url : string;
  username : string;
  password : string;
  remember_me : bool;
  content_type : string
}.
End TokenRequest.

Definition AuthService : Type := TokenRequest.t -> AuthOutcome.

Section Auth.

(** [settings.AUTH_SERVICE_BASE_URL] *)
Variable AUTH_SERVICE_BASE_URL : string.
Variable auth_service : AuthService.

Definition get_access_token_try (username password : string) (remember_me : bool)
  : Result string :=
  let auth_service_url := (AUTH_SERVICE_BASE_URL ++ "/auth/token")%string in
  let request :=
    {| TokenRequest.url := auth_service_url;
       TokenRequest.username := username;
       TokenRequest.password := password;
       TokenRequest.remember_me := remember_me;
       TokenRequest.content_type := "application/x-www-form-urlencoded" |} in
  match auth_service request with
  | AuthConnectionFailed m => Raise (RequestException m)
  | AuthResponded response =>
      if negb (AuthResponse.status_code response =? 200) then
        match AuthResponse.json response with
        | AuthResponse.NotJson => Raise (RequestException "response is not JSON")
        | AuthResponse.JsonOther _ => Raise (AttributeError "get")
        | AuthResponse.JsonObject detail _ =>
            Raise (HTTPException (AuthResponse.status_code response)
                     ("Authentication failed: "
                      ++ get_default detail "Unknown error")%string)
        end
      else
        match AuthResponse.json response with
        | AuthResponse.NotJson => Raise (RequestException "response is not JSON")
        | AuthResponse.JsonOther response_data => Ok response_data
        | AuthResponse.JsonObject _ response_data => Ok response_data
        end
  end.

Definition get_access_token_except {A : Type} (username : string) (e : Exn)
  : Result A :=
  match e with
  | IntegrityError orig =>
      Raise (HTTPException status.HTTP_400_BAD_REQUEST orig)
  | SQLAlchemyError _ =>
      Raise (HTTPException status.HTTP_500_INTERNAL_SERVER_ERROR
               ("An error occurred while authenticating the user with username "
                ++ username ++ ".")%string)
  | HTTPException status_code detail =>
      Raise (HTTPException status_code detail)
  | _ =>
      Raise (HTTPException status.HTTP_500_INTERNAL_SERVER_ERROR
               ("An error occurred while authenticating the user with username "
                ++ username ++ ".")%string)
  end.

Definition get_access_token (username password : string) (remember_me : bool)
  : Result string :=
  match get_access_token_try username password remember_me with
  | Ok content => Ok content
  | Raise e => get_access_token_except username e
  end.

End Auth.

(** ** The invariant of stored orders *)

(** Every stored header counts its lines, and its lines are numbered
    1..n in stored order. *)
Definition header_consistent (d : Database.t) (header : OrderHeader.t) : Prop :=
  let lines := relationship_order_lines d header in
  OrderHeader.total_items header = Z.of_nat (List.length lines)
  /\ map OrderLine.line_number lines
     = map Z.of_nat (seq 1 (List.length lines)).

Definition orders_consistent (d : Database.t) : Prop :=
  Forall (header_consistent d) (Database.order_headers d).

(** The calls [create_order] issues when no call fails. *)
Definition planned_calls (settings : Settings.t) (authorization : option string)
    (order_request : OrderHeaderCreateRequest.t) : list PatchCall.t :=
  map (patch_call settings authorization)
    (OrderHeaderCreateRequest.order_lines order_request).

(** ** The class body of [Settings] ([app/core/config.py]) *)

(** The statements of the class body that read the environment and
    raise, in their order.  [getenv] is [os.getenv]; [py_int] is [int] on
    a string, [None] when it raises. *)
Module Config.

Definition Environ : Type := string -> option string.

Record Postgres : Type := {
  POSTGRES_USER : string;
  POSTGRES_PASSWORD : string;
  POSTGRES_DB : string;
  POSTGRES_HOST : string;
  POSTGRES_PORT : Z
}.

Record Fields : Type := {
  JWT_SECRET_KEY : string;
  postgres : option Postgres;
  AUTH_SERVICE_BASE_URL : string;
  INVENTORY_SERVICE_BASE_URL : string
}.

Inductive ClassBody : Type :=
| ClassDefined (fields : Fields)
| ValueError (message : string)
| IntValueError (literal : string).

(** [not v] for the result of [os.getenv]. *)
Definition missing (v : option string) : bool :=
  match v with
  | None => true
  | Some s => negb (str_bool s)
  end.

Definition value (v : option string) : string := get_default v "".

Definition postgres_names : list string :=
  ["POSTGRES_USER"; "POSTGRES_PASSWORD"; "POSTGRES_DB"; "POSTGRES_HOST";
   "POSTGRES_PORT"].

Section ClassBody.

Variable py_int : string -> option Z.
Variable getenv : Environ.

(** The service URLs, read after the database block. *)
Definition service_urls (jwt : string) (pg : option Postgres) : ClassBody :=
  let auth := getenv "AUTH_SERVICE_BASE_URL" in
  if missing auth then
    ValueError "Missing AUTH_SERVICE_BASE_URL environment variable!"
  else
    let inventory := getenv "INVENTORY_SERVICE_BASE_URL" in
    if missing inventory then
      ValueError "Missing INVENTORY_SERVICE_BASE_URL environment variable!"
    else
      ClassDefined {| JWT_SECRET_KEY := jwt;
                      postgres := pg;
                      AUTH_SERVICE_BASE_URL := value auth;
                      INVENTORY_SERVICE_BASE_URL := value inventory |}.

Definition class_body : ClassBody :=
  let jwt := getenv "JWT_SECRET_KEY" in
  if missing jwt then
    ValueError "Missing JWT_SECRET_KEY environment variable!"
  else
    match getenv "ENV" with
    | Some "test" => service_urls (value jwt) None
    | _ =>
        let user := getenv "POSTGRES_USER" in
        let password := getenv "POSTGRES_PASSWORD" in
        let db := getenv "POSTGRES_DB" in
        let host := getenv "POSTGRES_HOST" in
        match getenv "POSTGRES_PORT" with
        | Some literal =>
            match py_int literal with
            | None => IntValueError literal
            | Some port =>
                if missing user then
                  ValueError "Missing POSTGRES_USER environment variable!"
                else if missing db then
                  ValueError "Missing POSTGRES_DB environment variable!"
                else if missing host then
                  ValueError "Missing POSTGRES_HOST environment variable!"
                else if port =? 0 then
                  ValueError "Missing POSTGRES_PORT environment variable!"
                else if missing password then
                  ValueError "Missing POSTGRES_PASSWORD environment variable!"
                else
                  service_urls (value jwt)
                    (Some {| POSTGRES_USER := value user;
                             POSTGRES_PASSWORD := value password;
                             POSTGRES_DB := value db;
                             POSTGRES_HOST := value host;
                             POSTGRES_PORT := port |})
            end
        | None =>
            if missing user then
              ValueError "Missing POSTGRES_USER environment variable!"
            else if missing db then
              ValueError "Missing POSTGRES_DB environment variable!"
            else if missing host then
              ValueError "Missing POSTGRES_HOST environment variable!"
            else if missing password then
              ValueError "Missing POSTGRES_PASSWORD environment variable!"
            else
              service_urls (value jwt)
                (Some {| POSTGRES_USER := value user;
                         POSTGRES_PASSWORD := value password;
                         POSTGRES_DB := value db;
                         POSTGRES_HOST := value host;
                         POSTGRES_PORT := 5432 |})
        end
    end.

End ClassBody.

(** [SQLALCHEMY_DATABASE_URL] *)
Definition SQLALCHEMY_DATABASE_URL (getenv : Environ) (fields : Fields) : string :=
  match getenv "ENV", postgres fields with
  | Some "test", _ => "sqlite:///:memory:"
  | _, Some pg =>
      ("postgresql://" ++ POSTGRES_USER pg ++ ":" ++ POSTGRES_PASSWORD pg
       ++ "@" ++ POSTGRES_HOST pg ++ ":" ++ py_str (POSTGRES_PORT pg)
       ++ "/" ++ POSTGRES_DB pg)%string
  | _, None => "sqlite:///:memory:"
  end.

(** A variable that is set and not empty. *)
Definition is_set (getenv : Environ) (name : string) : Prop :=
  exists s, getenv name = Some s /\ s <> "".

(** Environments for the test stage and for production. *)
Definition test_environ : Environ :=
  fun name =>
    if String.eqb name "ENV" then Some "test"
    else if String.eqb name "JWT_SECRET_KEY" then Some "secret"
    else if String.eqb name "AUTH_SERVICE_BASE_URL" then Some "http://localhost:8001"
    else if String.eqb name "INVENTORY_SERVICE_BASE_URL" then Some "http://localhost:8002"
    else None.

Definition test_environ_with_port : Environ :=
  fun name =>
    if String.eqb name "POSTGRES_PORT" then Some "not a number"
    else test_environ name.

End Config.

(** ** Further concrete scenarios *)

Module Cases.

(** A token without [username]. *)
Definition nameless : Payload.t :=
  {| Payload.username := None;
     Payload.user_id := Some 5;
     Payload.roles := Some ["Manager"];
     Payload.permissions := Some ["view_orders_ORDER_SERVICE"];
     Payload.exp := Some 1700000900 |}.

Definition jwt_decode (token key : string) (algorithms : list string)
    (now : Z) : option Payload.t :=
  if String.eqb token "nameless" then Some nameless
  else Scenario.jwt_decode token key algorithms now.

(** A database whose sequence has fallen behind its stored keys. *)
Definition out_of_step : Database.t :=
  {| Database.order_headers := [Scenario.header 1 2 100; Scenario.header 2 1 200];
     Database.order_lines :=
       [Scenario.line 1 1 456 2 100; Scenario.line 1 2 789 1 100;
        Scenario.line 2 1 321 5 200];
     Database.order_id_seq := 2 |}.

(** An order with a line of quantity 0. *)
Definition zero_quantity : OrderHeaderCreateRequest.t :=
  Scenario.order None [Scenario.item 456 2; Scenario.item 789 0].

(** AUTH-SERVICE answering 401 with a detail, and answering 200. *)
Definition refusing : AuthService :=
  fun _ =>
    AuthResponded
      {| AuthResponse.status_code := 401;
         AuthResponse.json :=
           AuthResponse.JsonObject (Some "Incorrect username or password")
             "body" |}.

End Cases.

(** * Properties *)

(** ** Token validation *)

Lemma py_in_In (x : string) (xs : list string) :
  py_in x xs = true <-> In x xs.
Proof.
  unfold py_in. rewrite existsb_exists. split.
  - intros [y [Hy Heq]]. apply String.eqb_eq in Heq. now subst.
  - intros H. exists x. split; [assumption | apply String.eqb_refl].
Qed.

Lemma any_py_in_intersects (required user_permissions : list string) :
  any (fun permission => py_in permission user_permissions) required = true
  <-> exists p, In p required /\ In p user_permissions.
Proof.
  unfold any. rewrite existsb_exists. split.
  - intros [p [Hp Hin]]. exists p. split; [assumption | now apply py_in_In].
  - intros [p [Hp Hin]]. exists p. split; [assumption | now apply py_in_In].
Qed.

Section SecurityFacts.

Variable settings : Settings.t.
Variable jwt_decode : string -> string -> list string -> Z -> option Payload.t.

(** Every failure of [validate_token] is a 401. *)
Lemma validate_token_raises_401 credentials now e :
  validate_token settings jwt_decode credentials now = Raise e ->
  exists detail, e = HTTPException 401 detail.
Proof.
  unfold validate_token.
  destruct credentials as [c|]; [|intros [= <-]; eauto].
  destruct (negb _); [intros [= <-]; eauto|].
  destruct (jwt_decode _ _ _ _) as [payload|]; [|intros [= <-]; eauto].
  destruct (match Payload.exp payload with None => true | Some ts => _ end);
    [intros [= <-]; eauto|].
  destruct (is_None _ || is_None _); [intros [= <-]; eauto | discriminate].
Qed.

(** A payload [validate_token] returns is the decoded one, unchanged. *)
Lemma validate_token_returns_decoded c now payload :
  validate_token settings jwt_decode (Some c) now = Ok payload ->
  jwt_decode (HTTPAuthorizationCredentials.credentials c)
    (Settings.JWT_SECRET_KEY settings) [Settings.ALGORITHM settings] now
  = Some payload.
Proof.
  unfold validate_token.
  destruct (negb _); [discriminate|].
  destruct (jwt_decode _ _ _ _) as [p|]; [|discriminate].
  destruct (match Payload.exp p with None => true | Some ts => _ end);
    [discriminate|].
  destruct (is_None _ || is_None _); [discriminate|].
  now intros [= ->].
Qed.

End SecurityFacts.

(** [tests/test_security.py], [test_validate_token_valid]: an unexpired
    token validates to the payload that was encoded. *)
Example test_validate_token_valid :
  validate_token Scenario.settings Scenario.jwt_decode
    (Scenario.bearer "testuser") Scenario.before_expiry
  = Ok Scenario.testuser.
Proof. reflexivity. Qed.

(** C3, as stated, fails at the boundary: a token whose expiry instant
    equals the current time exactly is accepted, not rejected as expired. *)
Lemma validate_token_accepts_exp_equal_to_now :
  Payload.exp Scenario.testuser = Some 1700000900
  /\ datetime_fromtimestamp 1700000900 = Scenario.at_expiry
  /\ validate_token Scenario.settings Scenario.jwt_decode
       (Scenario.bearer "testuser") Scenario.at_expiry
     = Ok Scenario.testuser.
Proof. repeat split. Qed.

(** C3 (amended): once the token has decoded, validation fails with 401
    "Token expired" exactly when the expiry claim is absent or the expiry
    instant is strictly earlier than the current time of the validation;
    there is no clock-skew allowance, and an expiry instant equal to the
    current time is not an expiry. *)
Theorem validate_token_expired_iff
    (settings : Settings.t)
    (jwt_decode : string -> string -> list string -> Z -> option Payload.t)
    (c : HTTPAuthorizationCredentials.t) (now : Z) (payload : Payload.t) :
  str_bool (HTTPAuthorizationCredentials.credentials c) = true ->
  jwt_decode (HTTPAuthorizationCredentials.credentials c)
    (Settings.JWT_SECRET_KEY settings) [Settings.ALGORITHM settings] now
  = Some payload ->
  (validate_token settings jwt_decode (Some c) now
   = Raise (HTTPException 401 "Token expired")
   <-> (Payload.exp payload = None
        \/ exists ts, Payload.exp payload = Some ts
                      /\ datetime_fromtimestamp ts < now)).
Proof.
  intros Hcred Hdec. unfold validate_token.
  rewrite Hcred, Hdec. cbn [negb].
  destruct (Payload.exp payload) as [ts|] eqn:Hexp.
  - destruct (Z.ltb_spec (datetime_fromtimestamp ts) now) as [Hlt|Hge].
    + split; [|reflexivity]. intros _. right. exists ts. now split.
    + split.
      * destruct (is_None _ || is_None _); discriminate.
      * intros [Hnone | [ts' [[= <-] Hlt]]]; [discriminate | lia].
  - split; [|reflexivity]. intros _. now left.
Qed.

Lemma validate_token_expired_iff_witness :
  validate_token Scenario.settings Scenario.jwt_decode
    (Scenario.bearer "testuser") Scenario.after_expiry
  = Raise (HTTPException 401 "Token expired")
  <-> (Payload.exp Scenario.testuser = None
       \/ exists ts, Payload.exp Scenario.testuser = Some ts
                     /\ datetime_fromtimestamp ts < Scenario.after_expiry).
Proof.
  apply (validate_token_expired_iff Scenario.settings Scenario.jwt_decode
           {| HTTPAuthorizationCredentials.scheme := "Bearer";
              HTTPAuthorizationCredentials.credentials := "testuser" |}
           Scenario.after_expiry Scenario.testuser);
    reflexivity.
Defined.

(** A token without [exp] is rejected as expired; one second later than
    its expiry a token is rejected as expired. *)
Example validate_token_without_exp :
  validate_token Scenario.settings Scenario.jwt_decode
    (Scenario.bearer "eternal") Scenario.before_expiry
  = Raise (HTTPException 401 "Token expired").
Proof. reflexivity. Qed.

Example validate_token_after_expiry :
  validate_token Scenario.settings Scenario.jwt_decode
    (Scenario.bearer "testuser") Scenario.after_expiry
  = Raise (HTTPException 401 "Token expired").
Proof. reflexivity. Qed.

(** ** Permission guard *)

Lemma check_permissions_cases (required : list string) (payload : Payload.t) :
  let user_permissions := get_default (Payload.permissions payload) [] in
  (any (fun p => py_in p user_permissions) required = true
   /\ check_permissions required payload = Ok tt)
  \/ (any (fun p => py_in p user_permissions) required = false
      /\ check_permissions required payload = Raise Forbidden).
Proof.
  unfold check_permissions. cbn zeta.
  destruct (any _ required); [left | right]; split; reflexivity.
Qed.

(** C4: the guard succeeds if and only if some required permission is
    among the token's permissions (one is enough, whatever the length of
    the required list); it raises 403 "insufficient permissions" if and
    only if none is; it has no other outcome. *)
Theorem check_permissions_iff_intersection
    (required : list string) (payload : Payload.t) :
  let user_permissions := get_default (Payload.permissions payload) [] in
  let intersects := exists p, In p required /\ In p user_permissions in
  (check_permissions required payload = Ok tt <-> intersects)
  /\ (check_permissions required payload = Raise Forbidden <-> ~ intersects)
  /\ (check_permissions required payload = Ok tt
      \/ check_permissions required payload = Raise Forbidden).
Proof.
  cbn zeta.
  destruct (check_permissions_cases required payload) as [[Hany ->] | [Hany ->]].
  - apply any_py_in_intersects in Hany. repeat split; auto.
    + discriminate.
    + intros Hn. contradiction.
  - assert (Hno : ~ exists p, In p required
                     /\ In p (get_default (Payload.permissions payload) [])).
    { intros H. apply any_py_in_intersects in H. congruence. }
    repeat split; auto.
    + discriminate.
    + intros H. contradiction.
Qed.

(** One permission of two is enough, and holding a permission that is
    not required does not help. *)
Example check_permissions_is_or :
  check_permissions ["manage_orders_ORDER_SERVICE"; "view_orders_ORDER_SERVICE"]
    {| Payload.username := Some "viewer"; Payload.user_id := Some 4;
       Payload.roles := None;
       Payload.permissions := Some ["view_orders_ORDER_SERVICE"];
       Payload.exp := Some 1700000900 |}
  = Ok tt
  /\ check_permissions ["manage_orders_ORDER_SERVICE"] Scenario.testuser
     = Raise Forbidden.
Proof. split; reflexivity. Qed.

(** C10: a payload without a permissions claim has the empty permission
    list: for every non-empty required list the guard raises 403, which is
    neither a 401 nor an internal error. *)
Theorem check_permissions_without_claim
    (required : list string) (payload : Payload.t) :
  Payload.permissions payload = None ->
  required <> [] ->
  get_default (Payload.permissions payload) [] = []
  /\ check_permissions required payload
     = Raise (HTTPException 403
                "Operation not permitted because of insufficient permissions").
Proof.
  intros Hnone _. unfold check_permissions. rewrite Hnone. cbn [get_default].
  split; [reflexivity|].
  assert (Hany : any (fun permission => py_in permission []) required = false).
  { unfold any. induction required as [|p rest IH]; [reflexivity|].
    cbn. exact IH. }
  now rewrite Hany.
Qed.

Lemma check_permissions_without_claim_witness :
  get_default (Payload.permissions Scenario.bare) [] = []
  /\ check_permissions create_order_permissions Scenario.bare
     = Raise (HTTPException 403
                "Operation not permitted because of insufficient permissions").
Proof.
  apply (check_permissions_without_claim create_order_permissions Scenario.bare).
  - reflexivity.
  - discriminate.
Defined.

(** The same through the whole dependency: the token validates, the
    guard answers 403. *)
Example permission_dependency_without_claim :
  permission_dependency Scenario.settings Scenario.jwt_decode
    read_all_orders_permissions (Scenario.bearer "bare") Scenario.before_expiry
  = Raise Forbidden.
Proof. reflexivity. Qed.

(** C5, as stated, fails: a valid unexpired token whose permissions
    contain the string "manage_orders" is refused by all three routes:
    the routes ask for "manage_orders_ORDER_SERVICE" and
    "view_orders_ORDER_SERVICE". *)
Lemma manage_orders_without_suffix_is_forbidden :
  validate_token Scenario.settings Scenario.jwt_decode
    (Scenario.bearer "plain_manager") Scenario.before_expiry
  = Ok Scenario.plain_manager
  /\ In "manage_orders" (get_default (Payload.permissions Scenario.plain_manager) [])
  /\ permission_dependency Scenario.settings Scenario.jwt_decode
       create_order_permissions (Scenario.bearer "plain_manager")
       Scenario.before_expiry
     = Raise Forbidden
  /\ permission_dependency Scenario.settings Scenario.jwt_decode
       read_all_orders_permissions (Scenario.bearer "plain_manager")
       Scenario.before_expiry
     = Raise Forbidden
  /\ permission_dependency Scenario.settings Scenario.jwt_decode
       read_order_permissions (Scenario.bearer "plain_manager")
       Scenario.before_expiry
     = Raise Forbidden.
Proof. repeat split. cbn. now left. Qed.

(** C5 (amended): POST /orders/ requires the permission
    "manage_orders_ORDER_SERVICE": a request bearing a valid unexpired
    token is authorized for it if and only if the token's permissions
    contain that string; a request whose token permissions contain
    "manage_orders_ORDER_SERVICE" or "view_orders_ORDER_SERVICE" is
    authorized for GET /orders/ and GET /orders/{order_id}. *)
Theorem routes_required_permissions
    (settings : Settings.t)
    (jwt_decode : string -> string -> list string -> Z -> option Payload.t)
    (credentials : option HTTPAuthorizationCredentials.t) (now : Z)
    (payload : Payload.t) :
  validate_token settings jwt_decode credentials now = Ok payload ->
  let user_permissions := get_default (Payload.permissions payload) [] in
  (permission_dependency settings jwt_decode create_order_permissions
     credentials now = Ok tt
   <-> In "manage_orders_ORDER_SERVICE" user_permissions)
  /\ (In "manage_orders_ORDER_SERVICE" user_permissions
      \/ In "view_orders_ORDER_SERVICE" user_permissions ->
      permission_dependency settings jwt_decode read_all_orders_permissions
        credentials now = Ok tt
      /\ permission_dependency settings jwt_decode read_order_permissions
           credentials now = Ok tt).
Proof.
  intros Hvalid. cbn zeta. unfold permission_dependency. rewrite Hvalid.
  split.
  - destruct (check_permissions_cases create_order_permissions payload)
      as [[Hany ->] | [Hany ->]].
    + apply any_py_in_intersects in Hany. destruct Hany as [p [[<- | []] Hp]].
      split; auto.
    + split; [discriminate|]. intros Hin.
      assert (any (fun p => py_in p (get_default (Payload.permissions payload) []))
                create_order_permissions = true) as Htrue.
      { apply any_py_in_intersects. eexists. split; [left; reflexivity | exact Hin]. }
      congruence.
  - intros Hin.
    assert (any (fun p => py_in p (get_default (Payload.permissions payload) []))
              read_all_orders_permissions = true) as Htrue.
    { apply any_py_in_intersects. destruct Hin as [Hin | Hin].
      - eexists. split; [left; reflexivity | exact Hin].
      - eexists. split; [right; left; reflexivity | exact Hin]. }
    change read_order_permissions with read_all_orders_permissions.
    destruct (check_permissions_cases read_all_orders_permissions payload)
      as [[_ ->] | [Hany _]]; [now split | congruence].
Qed.

Lemma routes_required_permissions_witness :
  permission_dependency Scenario.settings Scenario.jwt_decode
    create_order_permissions (Scenario.bearer "manager") Scenario.before_expiry
  = Ok tt
  /\ permission_dependency Scenario.settings Scenario.jwt_decode
       read_all_orders_permissions (Scenario.bearer "manager")
       Scenario.before_expiry
     = Ok tt
  /\ permission_dependency Scenario.settings Scenario.jwt_decode
       read_order_permissions (Scenario.bearer "manager")
       Scenario.before_expiry
     = Ok tt.
Proof.
  destruct (routes_required_permissions Scenario.settings Scenario.jwt_decode
              (Scenario.bearer "manager") Scenario.before_expiry
              Scenario.manager eq_refl) as [Hpost Hget].
  split.
  - apply Hpost. cbn. now left.
  - apply Hget. left. cbn. now left.
Defined.

(** ** Order creation *)

Section OrderFacts.

Variable settings : Settings.t.
Variable inventory : InventoryService.
Variable authorization : option string.

Let call := patch_call settings authorization.

Lemma pending_nil s : pending s [] = s.
Proof. destruct s. unfold pending. cbn. now rewrite app_nil_r. Qed.

Lemma pending_cons s l lines :
  pending (Db.add_line l s) lines = pending s (l :: lines).
Proof. unfold pending, Db.add_line. cbn. now rewrite <- app_assoc. Qed.

Lemma rollback_pending s lines :
  Db.rollback (pending s lines) = Db.rollback s.
Proof. reflexivity. Qed.

(** *** One turn of the loop *)

Lemma create_order_line_accepted new_order_id index item s calls :
  inventory calls (call item) = Responded 200 ->
  create_order_line settings inventory authorization new_order_id index item
    (world s calls)
  = (Ok tt,
     world (pending s (transient_lines new_order_id index [item]))
       (calls ++ [call item])).
Proof.
  intros H. unfold create_order_line, bind, db_add_line, modify_session,
    requests_patch, world. cbn. fold (call item). rewrite H. cbn.
  unfold pending, Db.add_line. reflexivity.
Qed.

Lemma create_order_line_rejected new_order_id index item s calls code :
  inventory calls (call item) = Responded code ->
  code <> 200 ->
  create_order_line settings inventory authorization new_order_id index item
    (world s calls)
  = (Raise (HTTPException 400 "Failed to update item quantity"),
     world (Db.rollback s) (calls ++ [call item])).
Proof.
  intros H Hcode. unfold create_order_line, bind, db_add_line, modify_session,
    requests_patch, world. cbn. fold (call item). rewrite H.
  apply Z.eqb_neq in Hcode. rewrite Hcode. reflexivity.
Qed.

Lemma create_order_line_unreachable new_order_id index item s calls m :
  inventory calls (call item) = ConnectionFailed m ->
  create_order_line settings inventory authorization new_order_id index item
    (world s calls)
  = (Raise (RequestException m),
     world (pending s (transient_lines new_order_id index [item]))
       (calls ++ [call item])).
Proof.
  intros H. unfold create_order_line, bind, db_add_line, modify_session,
    requests_patch, world. cbn. fold (call item). rewrite H.
  reflexivity.
Qed.

(** *** The whole loop *)

Lemma loop_all_accepted new_order_id items : forall index s calls,
  replay inventory calls (map call items)
  = map (fun _ => Responded 200) items ->
  for_enumerate
    (create_order_line settings inventory authorization new_order_id)
    index items (world s calls)
  = (Ok tt,
     world (pending s (transient_lines new_order_id index items))
       (calls ++ map call items)).
Proof.
  induction items as [|item rest IH]; intros index s calls Hreplay.
  - cbn. now rewrite pending_nil, app_nil_r.
  - cbn in Hreplay. injection Hreplay as Hfirst Hrest.
    cbn [for_enumerate]. unfold bind at 1.
    rewrite (create_order_line_accepted _ _ _ _ _ Hfirst).
    rewrite (IH _ _ _ Hrest). cbn [transient_lines map].
    f_equal. unfold world, pending. cbn. now rewrite <- !app_assoc.
Qed.

Lemma loop_first_rejection new_order_id before item code after :
  forall index s calls,
  replay inventory calls (map call (before ++ [item]))
  = map (fun _ => Responded 200) before ++ [Responded code] ->
  code <> 200 ->
  for_enumerate
    (create_order_line settings inventory authorization new_order_id)
    index (before ++ item :: after) (world s calls)
  = (Raise (HTTPException 400 "Failed to update item quantity"),
     world (Db.rollback s) (calls ++ map call (before ++ [item]))).
Proof.
  induction before as [|b rest IH]; intros index s calls Hreplay Hcode.
  - cbn in Hreplay. injection Hreplay as Hfirst.
    cbn [app for_enumerate]. unfold bind at 1.
    now rewrite (create_order_line_rejected _ _ _ _ _ _ Hfirst Hcode).
  - cbn in Hreplay. injection Hreplay as Hfirst Hrest.
    cbn [app for_enumerate]. unfold bind at 1.
    rewrite (create_order_line_accepted _ _ _ _ _ Hfirst).
    rewrite (IH _ _ _ Hrest Hcode). cbn [map app].
    rewrite rollback_pending. now rewrite <- app_assoc.
Qed.

Lemma loop_first_unreachable new_order_id before item m after :
  forall index s calls,
  replay inventory calls (map call (before ++ [item]))
  = map (fun _ => Responded 200) before ++ [ConnectionFailed m] ->
  for_enumerate
    (create_order_line settings inventory authorization new_order_id)
    index (before ++ item :: after) (world s calls)
  = (Raise (RequestException m),
     world (pending s (transient_lines new_order_id index (before ++ [item])))
       (calls ++ map call (before ++ [item]))).
Proof.
  induction before as [|b rest IH]; intros index s calls Hreplay.
  - cbn in Hreplay. injection Hreplay as Hfirst.
    cbn [app for_enumerate]. unfold bind at 1.
    now rewrite (create_order_line_unreachable _ _ _ _ _ _ Hfirst).
  - cbn in Hreplay. injection Hreplay as Hfirst Hrest.
    cbn [app for_enumerate]. unfold bind at 1.
    rewrite (create_order_line_accepted _ _ _ _ _ Hfirst).
    rewrite (IH _ _ _ Hrest). cbn [map app transient_lines].
    f_equal. unfold world, pending. cbn. now rewrite <- !app_assoc.
Qed.

End OrderFacts.

(** *** Flush and commit on a database whose sequence is ahead *)

Lemma header_key_fresh (d : Database.t) :
  sequence_ahead d ->
  existsb (fun row => OrderHeader.order_id row =? Database.order_id_seq d)
    (Database.order_headers d) = false.
Proof.
  intros [Hheaders _].
  destruct (existsb _ _) eqn:E; [|reflexivity].
  apply existsb_exists in E. destruct E as [row [Hin Heq]].
  rewrite Forall_forall in Hheaders. specialize (Hheaders row Hin).
  apply Z.eqb_eq in Heq. lia.
Qed.

Lemma find_header_fresh (d : Database.t) :
  sequence_ahead d ->
  find (fun row => OrderHeader.order_id row =? Database.order_id_seq d)
    (Database.order_headers d) = None.
Proof.
  intros [Hheaders _].
  destruct (find _ _) as [row|] eqn:E; [|reflexivity].
  apply find_some in E. destruct E as [Hin Heq].
  rewrite Forall_forall in Hheaders. specialize (Hheaders row Hin).
  apply Z.eqb_eq in Heq. lia.
Qed.

Lemma find_app_none {A : Type} (f : A -> bool) (l1 l2 : list A) :
  find f l1 = None -> find f (l1 ++ l2) = find f l2.
Proof.
  induction l1 as [|x l1 IH]; [reflexivity|].
  cbn. destruct (f x); [discriminate | exact IH].
Qed.

Lemma filter_none {A : Type} (f : A -> bool) (l : list A) :
  Forall (fun x => f x = false) l -> filter f l = [].
Proof.
  induction 1 as [|x l Hx _ IH]; [reflexivity|].
  cbn. now rewrite Hx.
Qed.

Lemma filter_all {A : Type} (f : A -> bool) (l : list A) :
  Forall (fun x => f x = true) l -> filter f l = l.
Proof.
  induction 1 as [|x l Hx _ IH]; [reflexivity|].
  cbn. now rewrite Hx, IH.
Qed.

Lemma flush_new_header now d h :
  sequence_ahead d ->
  Db.flush now (Db.add_header h (Session.open d))
  = (Ok [Database.order_id_seq d], staged now d h).
Proof.
  intros Hahead. unfold Db.flush, Db.add_header, Session.open. cbn.
  unfold Db.insert_header, Session.visible_headers. cbn.
  rewrite app_nil_r, (header_key_fresh d Hahead). reflexivity.
Qed.

Lemma insert_lines_numbered now new_order_id items : forall index s,
  (forall row, In row (Session.visible_lines s) ->
               OrderLine.order_id row = new_order_id ->
               OrderLine.line_number row <= index) ->
  existsb (fun row => OrderHeader.order_id row =? new_order_id)
    (Session.visible_headers s) = true ->
  Db.insert_lines now (transient_lines new_order_id index items) s
  = (Ok tt, inserted s (line_rows now new_order_id index items)).
Proof.
  induction items as [|item rest IH]; intros index s Hbelow Hparent.
  - cbn. destruct s. unfold inserted. cbn. now rewrite app_nil_r.
  - cbn [transient_lines line_rows Db.insert_lines]. unfold Db.insert_line.
    assert (Hfree : existsb
              (OrderLine.has_key
                 {| OrderLine.new_order_id := new_order_id;
                    OrderLine.new_line_number := index + 1;
                    OrderLine.new_item_id := OrderLineCreateRequest.item_id item;
                    OrderLine.new_quantity := OrderLineCreateRequest.quantity item |})
              (Session.visible_lines s) = false).
    { apply not_true_is_false. intros E.
      apply existsb_exists in E. destruct E as [row [Hin Hkey]].
      unfold OrderLine.has_key in Hkey. cbn in Hkey.
      apply andb_true_iff in Hkey. destruct Hkey as [Hid Hnum].
      apply Z.eqb_eq in Hid, Hnum. specialize (Hbelow row Hin Hid). lia. }
    rewrite Hfree. cbn [OrderLine.new_order_id]. rewrite Hparent. cbn [negb].
    rewrite IH.
    + unfold inserted. cbn. now rewrite <- app_assoc.
    + unfold Session.visible_lines. cbn. intros row Hin Hid.
      rewrite app_assoc in Hin. apply in_app_or in Hin.
      destruct Hin as [Hin | [<- | []]].
      * specialize (Hbelow row Hin Hid). lia.
      * cbn. lia.
    + exact Hparent.
Qed.

Lemma commit_staged_lines now d h items :
  sequence_ahead d ->
  Db.commit now
    (pending (staged now d h)
       (transient_lines (Database.order_id_seq d) 0 items))
  = (Ok tt,
     Session.open
       {| Database.order_headers :=
            Database.order_headers d
            ++ [{| OrderHeader.order_id := Database.order_id_seq d;
                   OrderHeader.user_id := OrderHeader.new_user_id h;
                   OrderHeader.total_items := OrderHeader.new_total_items h;
                   OrderHeader.created_at := now;
                   OrderHeader.updated_at := None |}];
          Database.order_lines :=
            Database.order_lines d
            ++ line_rows now (Database.order_id_seq d) 0 items;
          Database.order_id_seq := Database.order_id_seq d + 1 |}).
Proof.
  intros Hahead. unfold Db.commit, Db.flush.
  cbn [pending staged Session.new_headers Session.new_lines Db.insert_headers app].
  rewrite insert_lines_numbered.
  - reflexivity.
  - unfold Session.visible_lines. cbn. rewrite app_nil_r.
    intros row Hin Hid. destruct Hahead as [_ Hlines].
    rewrite Forall_forall in Hlines. specialize (Hlines row Hin). lia.
  - unfold Session.visible_headers. cbn. rewrite existsb_app. cbn.
    rewrite Z.eqb_refl. now rewrite orb_true_r.
Qed.

Lemma first_header_committed now d order_request :
  sequence_ahead d ->
  Db.first_header (Database.order_id_seq d)
    (Session.open (committed now d order_request))
  = Some (header_row now d order_request).
Proof.
  intros Hahead. unfold Db.first_header, Session.visible_headers. cbn.
  rewrite app_nil_r, (find_app_none _ _ _ (find_header_fresh d Hahead)).
  cbn. now rewrite Z.eqb_refl.
Qed.

(** *** The numbering of the inserted rows *)

Lemma line_rows_numbers now new_order_id items : forall index,
  map OrderLine.line_number (line_rows now new_order_id index items)
  = map (fun k => index + Z.of_nat k) (seq 1 (List.length items)).
Proof.
  induction items as [|item rest IH]; intros index; [reflexivity|].
  cbn [line_rows map List.length seq]. rewrite IH. f_equal.
  rewrite <- (seq_shift (List.length rest) 1), map_map.
  apply map_ext. intros k. lia.
Qed.

Lemma line_rows_items now new_order_id items : forall index,
  map (fun row => (OrderLine.item_id row, OrderLine.quantity row))
    (line_rows now new_order_id index items)
  = map (fun item => (OrderLineCreateRequest.item_id item,
                      OrderLineCreateRequest.quantity item)) items.
Proof.
  induction items as [|item rest IH]; intros index; [reflexivity|].
  cbn. now rewrite IH.
Qed.

Lemma line_rows_order_id now new_order_id items : forall index,
  Forall (fun row => OrderLine.order_id row = new_order_id)
    (line_rows now new_order_id index items).
Proof.
  induction items as [|item rest IH]; intros index; cbn;
    [constructor | constructor; [reflexivity | apply IH]].
Qed.

Lemma line_rows_length now new_order_id items : forall index,
  List.length (line_rows now new_order_id index items) = List.length items.
Proof.
  induction items as [|item rest IH]; intros index; [reflexivity|].
  cbn. now rewrite IH.
Qed.

(** *** The three ways through [create_order] *)

Section CreateOrderPaths.

Variable settings : Settings.t.
Variable inventory : InventoryService.
Variable authorization : option string.

Let call := patch_call settings authorization.

(** Up to the loop: the header is added and flushed. *)
Ltac enter_loop Hahead :=
  unfold create_order, try_except, create_order_try;
  unfold bind at 1; unfold db_add_header, modify_session at 1;
  cbn [World.session World.outbound world];
  unfold bind at 1; unfold db_flush, db_step;
  cbn [World.session World.outbound];
  rewrite (flush_new_header _ _ _ Hahead); cbn [hd];
  unfold bind at 1.

Lemma create_order_all_accepted now d order_request :
  sequence_ahead d ->
  replay inventory [] (map call (OrderHeaderCreateRequest.order_lines order_request))
  = map (fun _ => Responded 200)
      (OrderHeaderCreateRequest.order_lines order_request) ->
  create_order settings inventory now order_request authorization
    (world (Session.open d) [])
  = (Ok {| message := "Order created successfully";
           order := Database.order_id_seq d |},
     world (Session.open (committed now d order_request))
       (map call (OrderHeaderCreateRequest.order_lines order_request))).
Proof.
  intros Hahead Hreplay. enter_loop Hahead.
  match goal with
  | |- context [for_enumerate ?f ?i ?l ?w] =>
      change w with (world (staged now d (new_order order_request)) [])
  end.
  rewrite (loop_all_accepted settings inventory authorization _ _ _ _ _ Hreplay).
  cbn [app]. unfold bind at 1. unfold db_commit, db_step.
  cbn [world World.session World.outbound].
  rewrite (commit_staged_lines now d (new_order order_request) _ Hahead).
  unfold bind at 1. unfold db_first_header at 1.
  cbn [World.session World.outbound].
  change (Session.open _) with (Session.open (committed now d order_request)).
  rewrite (first_header_committed now d order_request Hahead).
  reflexivity.
Qed.

Lemma create_order_first_rejection now d order_request before item code after :
  sequence_ahead d ->
  OrderHeaderCreateRequest.order_lines order_request = before ++ item :: after ->
  replay inventory [] (map call (before ++ [item]))
  = map (fun _ => Responded 200) before ++ [Responded code] ->
  code <> 200 ->
  create_order settings inventory now order_request authorization
    (world (Session.open d) [])
  = (Raise (HTTPException 400 "Failed to update item quantity"),
     world (Session.open (rolled_back d)) (map call (before ++ [item]))).
Proof.
  intros Hahead Hlines Hreplay Hcode. enter_loop Hahead.
  match goal with
  | |- context [for_enumerate ?f ?i ?l ?w] =>
      change w with (world (staged now d (new_order order_request)) [])
  end.
  rewrite Hlines.
  rewrite (loop_first_rejection settings inventory authorization _ _ _ _ after
             _ _ _ Hreplay Hcode).
  reflexivity.
Qed.

Lemma create_order_first_unreachable now d order_request before item m after :
  sequence_ahead d ->
  OrderHeaderCreateRequest.order_lines order_request = before ++ item :: after ->
  replay inventory [] (map call (before ++ [item]))
  = map (fun _ => Responded 200) before ++ [ConnectionFailed m] ->
  exists s,
    create_order settings inventory now order_request authorization
      (world (Session.open d) [])
    = (Raise (HTTPException 500
                "An error occurred while processing the checkout."),
       world s (map call (before ++ [item])))
    /\ Db.close s = rolled_back d.
Proof.
  intros Hahead Hlines Hreplay. eexists. split.
  - enter_loop Hahead.
    match goal with
    | |- context [for_enumerate ?f ?i ?l ?w] =>
        change w with (world (staged now d (new_order order_request)) [])
    end.
    rewrite Hlines.
    rewrite (loop_first_unreachable settings inventory authorization _ _ _ _ after
               _ _ _ Hreplay).
    reflexivity.
  - reflexivity.
Qed.

End CreateOrderPaths.

(** *** Claims on order creation *)

(** C1: when the inventory call for line k is the first to return a
    status other than 200 (the lines [before] it returned 200), exactly k
    outbound calls have been issued, one per line 1..k in input order and
    none for the lines after it; the transaction is rolled back, so the
    stored header and line rows are those of before the request; and the
    request fails with a 400 error.  Holds for every position k of a
    request, in particular for 1 <= k < n with n >= 2. *)
Theorem create_order_fails_fast
    (settings : Settings.t) (inventory : InventoryService) (now : Z)
    (d : Database.t) (order_request : OrderHeaderCreateRequest.t)
    (authorization : option string)
    (before : list OrderLineCreateRequest.t) (item : OrderLineCreateRequest.t)
    (after : list OrderLineCreateRequest.t) (code : Z) :
  sequence_ahead d ->
  OrderHeaderCreateRequest.order_lines order_request = before ++ item :: after ->
  replay inventory [] (map (patch_call settings authorization) (before ++ [item]))
  = map (fun _ => Responded 200) before ++ [Responded code] ->
  code <> 200 ->
  let k := S (List.length before) in
  let calls :=
    firstn k (map (patch_call settings authorization)
                (OrderHeaderCreateRequest.order_lines order_request)) in
  exists d',
    run_with_db d (create_order settings inventory now order_request authorization)
    = (Raise (HTTPException 400 "Failed to update item quantity"), d', calls)
    /\ List.length calls = k
    /\ Database.order_headers d' = Database.order_headers d
    /\ Database.order_lines d' = Database.order_lines d.
Proof.
  intros Hahead Hlines Hreplay Hcode k calls.
  assert (Hcalls : calls = map (patch_call settings authorization) (before ++ [item])).
  { unfold calls, k. rewrite Hlines, firstn_map.
    replace (before ++ item :: after) with ((before ++ [item]) ++ after)
      by now rewrite <- app_assoc.
    replace (S (List.length before)) with (List.length (before ++ [item]) + 0)%nat
      by (rewrite length_app; cbn; lia).
    rewrite firstn_app_2. cbn. now rewrite app_nil_r. }
  exists (rolled_back d). repeat split.
  - unfold run_with_db.
    change {| World.session := Session.open d; World.outbound := [] |}
      with (world (Session.open d) []).
    rewrite (create_order_first_rejection settings inventory authorization now d
               order_request before item code after Hahead Hlines Hreplay Hcode).
    now rewrite Hcalls.
  - rewrite Hcalls, length_map, length_app. cbn. unfold k. lia.
Qed.

Lemma stored_sequence_ahead : sequence_ahead Scenario.stored.
Proof. split; repeat constructor. Defined.

Lemma create_order_fails_fast_witness :
  exists d',
    run_with_db Scenario.stored
      (create_order Scenario.settings (Scenario.rejects 789) 300
         Scenario.three_lines Scenario.authorization)
    = (Raise (HTTPException 400 "Failed to update item quantity"), d',
       [patch_call Scenario.settings Scenario.authorization (Scenario.item 456 2);
        patch_call Scenario.settings Scenario.authorization (Scenario.item 789 1)])
    /\ List.length
         [patch_call Scenario.settings Scenario.authorization (Scenario.item 456 2);
          patch_call Scenario.settings Scenario.authorization (Scenario.item 789 1)]
       = 2%nat
    /\ Database.order_headers d' = Database.order_headers Scenario.stored
    /\ Database.order_lines d' = Database.order_lines Scenario.stored.
Proof.
  apply (create_order_fails_fast Scenario.settings (Scenario.rejects 789) 300
           Scenario.stored Scenario.three_lines Scenario.authorization
           [Scenario.item 456 2] (Scenario.item 789 1) [Scenario.item 321 5] 409).
  - exact stored_sequence_ahead.
  - reflexivity.
  - reflexivity.
  - discriminate.
Defined.

(** C2: when every inventory call returns 200, exactly one header is
    committed, with [total_items] the number of lines, and the committed
    lines of the order are exactly one per input item, in input order,
    numbered 1..n.  (Holds for every n, so for n >= 1.) *)
Theorem create_order_commits
    (settings : Settings.t) (inventory : InventoryService) (now : Z)
    (d : Database.t) (order_request : OrderHeaderCreateRequest.t)
    (authorization : option string) :
  sequence_ahead d ->
  replay inventory []
    (map (patch_call settings authorization)
       (OrderHeaderCreateRequest.order_lines order_request))
  = map (fun _ => Responded 200)
      (OrderHeaderCreateRequest.order_lines order_request) ->
  let n := List.length (OrderHeaderCreateRequest.order_lines order_request) in
  let key := Database.order_id_seq d in
  exists d' header rows,
    run_with_db d (create_order settings inventory now order_request authorization)
    = (Ok {| message := "Order created successfully"; order := key |}, d',
       map (patch_call settings authorization)
         (OrderHeaderCreateRequest.order_lines order_request))
    /\ Database.order_headers d' = Database.order_headers d ++ [header]
    /\ OrderHeader.order_id header = key
    /\ OrderHeader.user_id header = OrderHeaderCreateRequest.user_id order_request
    /\ OrderHeader.total_items header = Z.of_nat n
    /\ Database.order_lines d' = Database.order_lines d ++ rows
    /\ filter (fun row => OrderLine.order_id row =? key) (Database.order_lines d')
       = rows
    /\ map OrderLine.line_number rows = map Z.of_nat (seq 1 n)
    /\ map (fun row => (OrderLine.item_id row, OrderLine.quantity row)) rows
       = map (fun item => (OrderLineCreateRequest.item_id item,
                           OrderLineCreateRequest.quantity item))
           (OrderHeaderCreateRequest.order_lines order_request).
Proof.
  intros Hahead Hreplay n key.
  exists (committed now d order_request), (header_row now d order_request),
    (line_rows now key 0 (OrderHeaderCreateRequest.order_lines order_request)).
  split; [|repeat split].
  - unfold run_with_db.
    change {| World.session := Session.open d; World.outbound := [] |}
      with (world (Session.open d) []).
    now rewrite (create_order_all_accepted settings inventory authorization now d
                   order_request Hahead Hreplay).
  - cbn [committed Database.order_lines]. rewrite filter_app.
    rewrite filter_none, filter_all; [reflexivity | |].
    + eapply Forall_impl; [|apply line_rows_order_id].
      intros row ->. apply Z.eqb_refl.
    + destruct Hahead as [_ Hlines]. eapply Forall_impl; [|exact Hlines].
      intros row Hlt. cbv beta in Hlt. apply Z.eqb_neq. unfold key. lia.
  - apply line_rows_numbers.
  - apply line_rows_items.
Qed.

Lemma create_order_commits_witness :
  exists d' header rows,
    run_with_db Scenario.stored
      (create_order Scenario.settings Scenario.accepts_all 300
         Scenario.two_lines Scenario.authorization)
    = (Ok {| message := "Order created successfully"; order := 3 |}, d',
       map (patch_call Scenario.settings Scenario.authorization)
         [Scenario.item 456 2; Scenario.item 789 1])
    /\ Database.order_headers d' = Database.order_headers Scenario.stored ++ [header]
    /\ OrderHeader.order_id header = 3
    /\ OrderHeader.user_id header = 123
    /\ OrderHeader.total_items header = 2
    /\ Database.order_lines d' = Database.order_lines Scenario.stored ++ rows
    /\ filter (fun row => OrderLine.order_id row =? 3) (Database.order_lines d')
       = rows
    /\ map OrderLine.line_number rows = [1; 2]
    /\ map (fun row => (OrderLine.item_id row, OrderLine.quantity row)) rows
       = [(456, 2); (789, 1)].
Proof.
  apply (create_order_commits Scenario.settings Scenario.accepts_all 300
           Scenario.stored Scenario.two_lines Scenario.authorization).
  - exact stored_sequence_ahead.
  - reflexivity.
Defined.

(** C6, as stated, fails.  The error surfaced when an inventory call is
    rejected is one fixed exception: it is the same for item 456 rejected
    with 409 and for item 789 rejected with 500, so it carries neither the
    failing item nor the cause.  And an inventory call that fails without
    a response surfaces as a 500, not as a 400. *)
Lemma create_order_error_is_generic :
  fst (fst (run_with_db Scenario.stored
              (create_order Scenario.settings (Scenario.rejects 456) 300
                 (Scenario.order None [Scenario.item 456 2])
                 Scenario.authorization)))
  = Raise (HTTPException 400 "Failed to update item quantity")
  /\ fst (fst (run_with_db Scenario.stored
                 (create_order Scenario.settings
                    (fun _ _ => Responded 500) 300
                    (Scenario.order None [Scenario.item 789 1])
                    Scenario.authorization)))
     = Raise (HTTPException 400 "Failed to update item quantity")
  /\ fst (fst (run_with_db Scenario.stored
                 (create_order Scenario.settings (Scenario.unreachable_for 456) 300
                    (Scenario.order None [Scenario.item 456 2])
                    Scenario.authorization)))
     = Raise (HTTPException 500
                "An error occurred while processing the checkout.").
Proof. repeat split. Qed.

(** C6 (amended): when an inventory call returns a status other than 200
    during order creation, the error surfaced to the caller has status
    400 and the fixed detail "Failed to update item quantity", whichever
    item failed and whatever status was returned. *)
Theorem create_order_rejection_error
    (settings : Settings.t) (inventory : InventoryService) (now : Z)
    (d : Database.t) (order_request : OrderHeaderCreateRequest.t)
    (authorization : option string)
    (before : list OrderLineCreateRequest.t) (item : OrderLineCreateRequest.t)
    (after : list OrderLineCreateRequest.t) (code : Z) :
  sequence_ahead d ->
  OrderHeaderCreateRequest.order_lines order_request = before ++ item :: after ->
  replay inventory [] (map (patch_call settings authorization) (before ++ [item]))
  = map (fun _ => Responded 200) before ++ [Responded code] ->
  code <> 200 ->
  fst (fst (run_with_db d
              (create_order settings inventory now order_request authorization)))
  = Raise (HTTPException status.HTTP_400_BAD_REQUEST
             "Failed to update item quantity").
Proof.
  intros Hahead Hlines Hreplay Hcode. unfold run_with_db.
  change {| World.session := Session.open d; World.outbound := [] |}
    with (world (Session.open d) []).
  now rewrite (create_order_first_rejection settings inventory authorization now d
                 order_request before item code after Hahead Hlines Hreplay Hcode).
Qed.

Lemma create_order_rejection_error_witness :
  fst (fst (run_with_db Scenario.stored
              (create_order Scenario.settings (Scenario.rejects 789) 300
                 Scenario.three_lines Scenario.authorization)))
  = Raise (HTTPException status.HTTP_400_BAD_REQUEST
             "Failed to update item quantity").
Proof.
  apply (create_order_rejection_error Scenario.settings (Scenario.rejects 789) 300
           Scenario.stored Scenario.three_lines Scenario.authorization
           [Scenario.item 456 2] (Scenario.item 789 1) [Scenario.item 321 5] 409).
  - exact stored_sequence_ahead.
  - reflexivity.
  - reflexivity.
  - discriminate.
Defined.

(** C7: a body whose [order_lines] is empty is rejected by the schema's
    validator; the route answers with the validation error before
    [create_order] runs: the database is as it was and no outbound call
    has been made. *)
Theorem post_orders_rejects_empty_order_lines
    (settings : Settings.t) (inventory : InventoryService) (now : Z)
    (d : Database.t) (user_id : Z) (total_items : option Z)
    (authorization : option string) :
  exists errors,
    post_orders settings inventory now d
      {| OrderHeaderCreateRequest.user_id := user_id;
         OrderHeaderCreateRequest.total_items := total_items;
         OrderHeaderCreateRequest.order_lines := [] |}
      authorization
    = (Raise (RequestValidationError errors), d, [])
    /\ In ("order_lines", "order_lines list must contain at least one item")
         errors
    /\ check_list_items_not_empty []
       = [("order_lines", "order_lines list must contain at least one item")].
Proof.
  unfold post_orders, OrderHeaderCreateRequest_validate. cbn.
  set (errors := field_gt0 "user_id" user_id
                 ++ optional_field_gt0 "total_items" total_items
                 ++ [("order_lines",
                      "order_lines list must contain at least one item")]).
  exists errors. assert (Hin : In ("order_lines",
                     "order_lines list must contain at least one item") errors).
  { unfold errors. apply in_or_app. right. apply in_or_app. right. now left. }
  destruct errors as [|e rest]; [contradiction|]. now repeat split.
Qed.

(** C9: [create_order] never reads the request's [total_items]: its
    behaviour is the same for every supplied value; the schema checks a
    supplied value against 0 only, never against the number of lines; and
    the header a successful request stores has [total_items] equal to the
    number of lines. *)
Theorem create_order_ignores_total_items
    (settings : Settings.t) (inventory : InventoryService) (now : Z)
    (d : Database.t) (user_id : Z) (supplied : option Z)
    (lines : list OrderLineCreateRequest.t) (authorization : option string) :
  sequence_ahead d ->
  replay inventory [] (map (patch_call settings authorization) lines)
  = map (fun _ => Responded 200) lines ->
  let request total_items :=
    {| OrderHeaderCreateRequest.user_id := user_id;
       OrderHeaderCreateRequest.total_items := total_items;
       OrderHeaderCreateRequest.order_lines := lines |} in
  (forall other,
     create_order settings inventory now (request other) authorization
     = create_order settings inventory now (request supplied) authorization)
  /\ (OrderHeaderCreateRequest_validate (request supplied) = []
      <-> OrderHeaderCreateRequest_validate (request None) = []
          /\ forall t, supplied = Some t -> 0 < t)
  /\ exists d' header,
       run_with_db d
         (create_order settings inventory now (request supplied) authorization)
       = (Ok {| message := "Order created successfully";
                order := Database.order_id_seq d |}, d',
          map (patch_call settings authorization) lines)
       /\ Database.order_headers d' = Database.order_headers d ++ [header]
       /\ OrderHeader.total_items header = Z.of_nat (List.length lines).
Proof.
  intros Hahead Hreplay request. split; [|split].
  - intros other. reflexivity.
  - unfold OrderHeaderCreateRequest_validate, request. cbn.
    destruct supplied as [t|]; cbn.
    + unfold field_gt0 at 2. destruct (Z.ltb_spec 0 t) as [Hpos|Hneg].
      * cbn. split; [intros H; split; [exact H | intros t' [= <-]; exact Hpos]
                    | intros [H _]; exact H].
      * split.
        -- intros H. apply app_eq_nil in H. destruct H as [_ H].
           discriminate.
        -- intros [_ H]. specialize (H t eq_refl). lia.
    + split; [intros H; split; [exact H | discriminate] | intros [H _]; exact H].
  - exists (committed now d (request supplied)),
      (header_row now d (request supplied)).
    repeat split. unfold run_with_db.
    change {| World.session := Session.open d; World.outbound := [] |}
      with (world (Session.open d) []).
    now rewrite (create_order_all_accepted settings inventory authorization now d
                   (request supplied) Hahead Hreplay).
Qed.

(** The docstring's order with [total_items] 7 instead of 2: the schema
    accepts it and the stored header counts 2. *)
Lemma create_order_ignores_total_items_witness :
  (forall other,
     create_order Scenario.settings Scenario.accepts_all 300
       (Scenario.order other [Scenario.item 456 2; Scenario.item 789 1])
       Scenario.authorization
     = create_order Scenario.settings Scenario.accepts_all 300
         (Scenario.order (Some 7) [Scenario.item 456 2; Scenario.item 789 1])
         Scenario.authorization)
  /\ (OrderHeaderCreateRequest_validate
        (Scenario.order (Some 7) [Scenario.item 456 2; Scenario.item 789 1]) = []
      <-> OrderHeaderCreateRequest_validate
            (Scenario.order None [Scenario.item 456 2; Scenario.item 789 1]) = []
          /\ forall t, Some 7 = Some t -> 0 < t)
  /\ exists d' header,
       run_with_db Scenario.stored
         (create_order Scenario.settings Scenario.accepts_all 300
            (Scenario.order (Some 7) [Scenario.item 456 2; Scenario.item 789 1])
            Scenario.authorization)
       = (Ok {| message := "Order created successfully"; order := 3 |}, d',
          map (patch_call Scenario.settings Scenario.authorization)
            [Scenario.item 456 2; Scenario.item 789 1])
       /\ Database.order_headers d' = Database.order_headers Scenario.stored ++ [header]
       /\ OrderHeader.total_items header = 2.
Proof.
  apply (create_order_ignores_total_items Scenario.settings Scenario.accepts_all
           300 Scenario.stored 123 (Some 7)
           [Scenario.item 456 2; Scenario.item 789 1] Scenario.authorization).
  - exact stored_sequence_ahead.
  - reflexivity.
Defined.

Example post_orders_total_items_disagrees :
  OrderHeaderCreateRequest_validate
    (Scenario.order (Some 7) [Scenario.item 456 2; Scenario.item 789 1]) = []
  /\ post_orders Scenario.settings Scenario.accepts_all 300 Scenario.stored
       (Scenario.order (Some 7) [Scenario.item 456 2; Scenario.item 789 1])
       Scenario.authorization
     = (Ok {| message := "Order created successfully"; order := 3 |},
        committed 300 Scenario.stored Scenario.two_lines,
        map (patch_call Scenario.settings Scenario.authorization)
          [Scenario.item 456 2; Scenario.item 789 1]).
Proof. split; reflexivity. Qed.

(** ** Listing *)

Section SortFacts.

Variable le : OrderHeader.t -> OrderHeader.t -> bool.
Hypothesis le_total : forall a b, le a b = false -> le b a = true.

Let R (a b : OrderHeader.t) : Prop := le a b = true.

Lemma insert_row_perm x l : Permutation (insert_row le x l) (x :: l).
Proof.
  induction l as [|y rest IH]; cbn; [reflexivity|].
  destruct (le x y); [reflexivity|].
  rewrite IH. apply perm_swap.
Qed.

Lemma sort_rows_perm l : Permutation (sort_rows le l) l.
Proof.
  induction l as [|x rest IH]; cbn; [constructor|].
  rewrite insert_row_perm. now constructor.
Qed.

Lemma insert_row_hd x y l :
  R y x -> HdRel R y l -> HdRel R y (insert_row le x l).
Proof.
  intros Hyx Hhd. destruct l as [|z rest]; cbn; [now constructor|].
  destruct (le x z); constructor; [assumption | now inversion Hhd].
Qed.

Lemma insert_row_sorted x l : Sorted R l -> Sorted R (insert_row le x l).
Proof.
  induction 1 as [|y rest Hsorted IH Hhd]; cbn.
  - repeat constructor.
  - destruct (le x y) eqn:Hxy.
    + constructor; [now constructor | now constructor].
    + constructor; [exact IH|].
      apply insert_row_hd; [now apply le_total | exact Hhd].
Qed.

Lemma sort_rows_sorted l : Sorted R (sort_rows le l).
Proof.
  induction l as [|x rest IH]; cbn; [constructor|].
  now apply insert_row_sorted.
Qed.

End SortFacts.

Lemma Sorted_weaken {A : Type} (R1 R2 : A -> A -> Prop) (l : list A) :
  (forall a b, R1 a b -> R2 a b) -> Sorted R1 l -> Sorted R2 l.
Proof.
  intros Himpl. induction 1 as [|x rest Hsorted IH Hhd]; constructor.
  - exact IH.
  - destruct Hhd; constructor. now apply Himpl.
Qed.

Lemma row_le_total c ascending a b :
  row_le c ascending a b = false -> row_le c ascending b a = true.
Proof.
  unfold row_le. destruct ascending; intros H;
    apply Z.leb_gt in H; apply Z.leb_le; lia.
Qed.

(** [lower] and the allow-list. *)
Lemma effective_order_by_cases (order_by : option string) :
  effective_order_by order_by = "order_id"
  \/ effective_order_by order_by = "total_items"
  \/ effective_order_by order_by = "created_at".
Proof.
  unfold effective_order_by.
  set (s := lower match order_by with None => "order_id" | Some s => s end).
  destruct (py_in s allowed_columns) eqn:E; [|now left].
  apply py_in_In in E. cbn in E.
  destruct E as [<- | [<- | [<- | []]]]; auto.
Qed.

Lemma effective_order_by_absent : effective_order_by None = "order_id".
Proof. reflexivity. Qed.

Lemma effective_order_by_unrecognized (s : string) :
  ~ In (lower s) allowed_columns -> effective_order_by (Some s) = "order_id".
Proof.
  intros Hnot. unfold effective_order_by.
  destruct (py_in (lower s) allowed_columns) eqn:E; [|reflexivity].
  apply py_in_In in E. contradiction.
Qed.

Lemma effective_order_by_recognized (s : string) :
  In (lower s) allowed_columns -> effective_order_by (Some s) = lower s.
Proof.
  intros Hin. unfold effective_order_by.
  apply py_in_In in Hin. now rewrite Hin.
Qed.

(** [getattr] never fails in [read_all_orders]. *)
Lemma getattr_effective_order_by (order_by : option string) :
  exists c, getattr_OrderHeader (effective_order_by order_by) = Some c.
Proof.
  destruct (effective_order_by_cases order_by) as [-> | [-> | ->]];
    eexists; reflexivity.
Qed.

(** What [read_all_orders] computes once its column is known. *)
Lemma read_all_orders_on_column settings d limit order_by ascending c :
  getattr_OrderHeader (effective_order_by order_by) = Some c ->
  read_all_orders settings d limit order_by ascending
  = match listing settings d c ascending limit with
    | Ok rows => Ok rows
    | Raise e => read_all_orders_except e
    end.
Proof.
  intros Hc. unfold read_all_orders, read_all_orders_try, listing. rewrite Hc.
  destruct limit; reflexivity.
Qed.

Lemma listing_non_negative_limit settings d c ascending limit :
  (forall n, limit = Some n -> 0 <= n) ->
  listing settings d c ascending limit
  = Ok (let ordered := sort_rows (row_le c ascending) (Database.order_headers d) in
        match limit with
        | None => ordered
        | Some n => firstn (Z.to_nat n) ordered
        end).
Proof.
  intros Hlimit. unfold listing, execute_select. cbn.
  destruct limit as [n|]; [|reflexivity].
  unfold apply_limit. specialize (Hlimit n eq_refl).
  destruct (Z.ltb_spec n 0); [lia | reflexivity].
Qed.

(** C8, as stated, fails twice.  The allow-list is matched on the
    lower-cased value: "TOTAL_ITEMS" is not one of the three allowed
    strings, yet the listing is ordered by [total_items], not by
    [order_id].  And a present limit that is negative does not truncate:
    PostgreSQL refuses it (the listing errors with a 500) and SQLite
    returns every row. *)
Lemma read_all_orders_case_and_negative_limit :
  (~ In "TOTAL_ITEMS" allowed_columns
   /\ read_all_orders Scenario.settings Scenario.stored None
        (Some "TOTAL_ITEMS") true
      = Ok [Scenario.header 2 1 200; Scenario.header 1 2 100]
   /\ read_all_orders Scenario.settings Scenario.stored None
        (Some "order_id") true
      = Ok [Scenario.header 1 2 100; Scenario.header 2 1 200])
  /\ (~ In "price" allowed_columns
      /\ Settings.dialect Scenario.settings = PostgreSQL
      /\ read_all_orders Scenario.settings Scenario.stored (Some (-1))
           (Some "price") true
         = Raise (HTTPException 500 "An error occurred while fetching all orders.")
      /\ Settings.dialect Scenario.test_settings = SQLite
      /\ read_all_orders Scenario.test_settings Scenario.stored (Some (-1))
           (Some "price") true
         = Ok [Scenario.header 1 2 100; Scenario.header 2 1 200]).
Proof.
  split; [split; [|split; reflexivity] | split; [|repeat split]];
    intros [H | [H | [H | []]]]; discriminate.
Qed.

(** C8 (amended): for every GET /orders/ request whose [order_by] value,
    lower-cased, is not one of the allowed columns (order_id,
    total_items, created_at), or whose [order_by] is absent, and whose
    limit, if present, is not negative, the listing does not error and is
    the one ordered by [order_id] (ascending or descending as asked): it
    equals the listing for an explicit "order_id"; a present limit n
    keeps the first n rows of that same ordering. *)
Theorem read_all_orders_falls_back_to_order_id
    (settings : Settings.t) (d : Database.t) (limit : option Z)
    (order_by : option string) (ascending : bool) :
  (order_by = None
   \/ exists s, order_by = Some s /\ ~ In (lower s) allowed_columns) ->
  (forall n, limit = Some n -> 0 <= n) ->
  let ordered :=
    sort_rows (row_le col_order_id ascending) (Database.order_headers d) in
  read_all_orders settings d limit order_by ascending
  = Ok match limit with
       | None => ordered
       | Some n => firstn (Z.to_nat n) ordered
       end
  /\ read_all_orders settings d limit order_by ascending
     = read_all_orders settings d limit (Some "order_id") ascending
  /\ Permutation ordered (Database.order_headers d)
  /\ Sorted (fun a b =>
               if ascending
               then OrderHeader.order_id a <= OrderHeader.order_id b
               else OrderHeader.order_id b <= OrderHeader.order_id a)
       ordered.
Proof.
  intros Horder Hlimit ordered.
  assert (Hname : effective_order_by order_by = "order_id").
  { destruct Horder as [-> | [s [-> Hnot]]];
      [reflexivity | now apply effective_order_by_unrecognized]. }
  assert (Hc : getattr_OrderHeader (effective_order_by order_by) = Some col_order_id)
    by now rewrite Hname.
  assert (Hread : forall o,
             getattr_OrderHeader (effective_order_by o) = Some col_order_id ->
             read_all_orders settings d limit o ascending
             = Ok match limit with
                  | None => ordered
                  | Some n => firstn (Z.to_nat n) ordered
                  end).
  { intros o Ho. rewrite (read_all_orders_on_column settings d limit o ascending col_order_id Ho).
    now rewrite (listing_non_negative_limit settings d col_order_id ascending limit Hlimit). }
  split; [now apply Hread|]. split; [|split].
  - rewrite (Hread order_by Hc). symmetry. now apply Hread.
  - apply sort_rows_perm.
  - pose proof (sort_rows_sorted (row_le col_order_id ascending)
                  (row_le_total col_order_id ascending)
                  (Database.order_headers d)) as Hsorted.
    fold ordered in Hsorted. revert Hsorted. apply Sorted_weaken.
    intros a b. unfold row_le. cbn. destruct ascending; apply Z.leb_le.
Qed.

Lemma read_all_orders_falls_back_to_order_id_witness :
  let ordered :=
    sort_rows (row_le col_order_id false)
      (Database.order_headers Scenario.stored) in
  read_all_orders Scenario.settings Scenario.stored (Some 1) (Some "price") false
  = Ok match Some 1 with
       | None => ordered
       | Some n => firstn (Z.to_nat n) ordered
       end
  /\ read_all_orders Scenario.settings Scenario.stored (Some 1) (Some "price") false
     = read_all_orders Scenario.settings Scenario.stored (Some 1)
         (Some "order_id") false
  /\ Permutation ordered (Database.order_headers Scenario.stored)
  /\ Sorted (fun a b =>
               if false
               then OrderHeader.order_id a <= OrderHeader.order_id b
               else OrderHeader.order_id b <= OrderHeader.order_id a)
       ordered.
Proof.
  apply (read_all_orders_falls_back_to_order_id Scenario.settings Scenario.stored
           (Some 1) (Some "price") false).
  - right. exists "price". split; [reflexivity|].
    intros [H | [H | [H | []]]]; discriminate.
  - intros n [= <-]. lia.
Defined.

(** The descending fallback listing with limit 1 is the newest order. *)
Example read_all_orders_unrecognized_limit_1 :
  read_all_orders Scenario.settings Scenario.stored (Some 1) (Some "price") false
  = Ok [Scenario.header 2 1 200].
Proof. reflexivity. Qed.

(** X18: an [order_by] value that is an allowed column in any letter
    case orders the listing by that column, ascending or descending as
    asked; a limit that is not negative keeps the first rows. *)
Lemma read_all_orders_recognized settings d limit (s : string) ascending c :
  In (lower s) allowed_columns ->
  getattr_OrderHeader (lower s) = Some c ->
  (forall n, limit = Some n -> 0 <= n) ->
  let ordered := sort_rows (row_le c ascending) (Database.order_headers d) in
  read_all_orders settings d limit (Some s) ascending
  = Ok match limit with
       | None => ordered
       | Some n => firstn (Z.to_nat n) ordered
       end
  /\ Sorted (fun a b => row_le c ascending a b = true) ordered.
Proof.
  intros Hin Hc Hlimit ordered. split.
  - rewrite (read_all_orders_on_column settings d limit (Some s) ascending c).
    + now rewrite (listing_non_negative_limit settings d c ascending limit Hlimit).
    + now rewrite (effective_order_by_recognized s Hin).
  - apply sort_rows_sorted, row_le_total.
Qed.

(** ** The invariant is kept *)

Lemma empty_sequence_ahead : sequence_ahead Database.empty.
Proof. split; constructor. Qed.

Lemma rolled_back_sequence_ahead d :
  sequence_ahead d -> sequence_ahead (rolled_back d).
Proof.
  intros [Hh Hl]. split; cbn; (eapply Forall_impl; [|eassumption]);
    cbv beta; intros; lia.
Qed.

Lemma committed_sequence_ahead now d order_request :
  sequence_ahead d -> sequence_ahead (committed now d order_request).
Proof.
  intros [Hh Hl]. split; cbn; apply Forall_app; split.
  - eapply Forall_impl; [|exact Hh]. cbv beta. intros; lia.
  - constructor; [cbn; lia | constructor].
  - eapply Forall_impl; [|exact Hl]. cbv beta. intros; lia.
  - eapply Forall_impl; [|apply line_rows_order_id]. cbv beta. intros; lia.
Qed.

(** The answers to the calls of a request: all 200, or a first one that
    is not. *)
Lemma replay_cases (inventory : InventoryService)
    (call : OrderLineCreateRequest.t -> PatchCall.t)
    (items : list OrderLineCreateRequest.t) : forall history,
  replay inventory history (map call items)
  = map (fun _ => Responded 200) items
  \/ exists before item after outcome,
       items = before ++ item :: after
       /\ replay inventory history (map call (before ++ [item]))
          = map (fun _ => Responded 200) before ++ [outcome]
       /\ outcome <> Responded 200.
Proof.
  induction items as [|x rest IH]; intros history; [now left|].
  destruct (inventory history (call x)) as [code|m] eqn:Hx.
  - destruct (Z.eq_dec code 200) as [-> | Hcode].
    + destruct (IH (history ++ [call x]))
        as [Hall | [before [item [after [outcome [-> [Hreplay Hout]]]]]]].
      * left. cbn. now rewrite Hx, Hall.
      * right. exists (x :: before), item, after, outcome.
        repeat split; [|exact Hout]. cbn. now rewrite Hx, Hreplay.
    + right. exists [], x, rest, (Responded code).
      repeat split; [cbn; now rewrite Hx | congruence].
  - right. exists [], x, rest, (ConnectionFailed m).
    repeat split; [cbn; now rewrite Hx | discriminate].
Qed.

(** X14: whatever the inventory service answers, [create_order] leaves
    the stored rows as they were or adds exactly the rows of the request,
    and keeps the sequence of order ids ahead of every stored key. *)
Theorem create_order_keeps_sequence_ahead
    (settings : Settings.t) (inventory : InventoryService) (now : Z)
    (d : Database.t) (order_request : OrderHeaderCreateRequest.t)
    (authorization : option string) :
  sequence_ahead d ->
  let d' := snd (fst (run_with_db d
                        (create_order settings inventory now order_request
                           authorization))) in
  (d' = committed now d order_request \/ d' = rolled_back d)
  /\ sequence_ahead d'.
Proof.
  intros Hahead d'.
  assert (Hcases : d' = committed now d order_request \/ d' = rolled_back d).
  { unfold d', run_with_db.
    change {| World.session := Session.open d; World.outbound := [] |}
      with (world (Session.open d) []).
    destruct (replay_cases inventory (patch_call settings authorization)
                (OrderHeaderCreateRequest.order_lines order_request) [])
      as [Hall | [before [item [after [outcome [Hlines [Hreplay Hout]]]]]]].
    - left.
      now rewrite (create_order_all_accepted settings inventory authorization now d
                     order_request Hahead Hall).
    - right. destruct outcome as [code|m].
      + assert (Hcode : code <> 200) by congruence.
        now rewrite (create_order_first_rejection settings inventory authorization
                       now d order_request before item code after
                       Hahead Hlines Hreplay Hcode).
      + destruct (create_order_first_unreachable settings inventory authorization
                    now d order_request before item m after Hahead Hlines Hreplay)
          as [s [-> Hclose]].
        exact Hclose. }
  split; [exact Hcases|].
  destruct Hcases as [-> | ->];
    [now apply committed_sequence_ahead | now apply rolled_back_sequence_ahead].
Qed.

(** * Further properties *)

(** ** Token validation: every outcome *)

(** X1: [validate_token] returns a payload exactly when a non-empty
    credential decodes, its [exp] is present and not earlier than the
    current time, and [username] and [user_id] are present; the payload
    returned is the decoded one, unchanged. *)
Theorem validate_token_ok_iff
    (settings : Settings.t)
    (jwt_decode : string -> string -> list string -> Z -> option Payload.t)
    (credentials : option HTTPAuthorizationCredentials.t) (now : Z)
    (payload : Payload.t) :
  validate_token settings jwt_decode credentials now = Ok payload
  <-> exists c,
        credentials = Some c
        /\ HTTPAuthorizationCredentials.credentials c <> ""
        /\ jwt_decode (HTTPAuthorizationCredentials.credentials c)
             (Settings.JWT_SECRET_KEY settings) [Settings.ALGORITHM settings] now
           = Some payload
        /\ (exists ts, Payload.exp payload = Some ts
                       /\ now <= datetime_fromtimestamp ts)
        /\ Payload.username payload <> None
        /\ Payload.user_id payload <> None.
Proof.
  unfold validate_token. split.
  - destruct credentials as [c|]; [|discriminate].
    destruct (HTTPAuthorizationCredentials.credentials c) as [|a token] eqn:Hcred;
      [discriminate|]. cbn [str_bool negb].
    destruct (jwt_decode _ _ _ _) as [p|] eqn:Hdec; [|discriminate].
    destruct (Payload.exp p) as [ts|] eqn:Hexp; [|discriminate].
    destruct (Z.ltb_spec (datetime_fromtimestamp ts) now) as [Hlt|Hge];
      [discriminate|].
    destruct (Payload.username p) as [u|] eqn:Hu; [|discriminate].
    destruct (Payload.user_id p) as [i|] eqn:Hi; [|discriminate].
    cbn. intros [= <-]. exists c. rewrite Hcred.
    split; [reflexivity|]. split; [discriminate|]. split; [exact Hdec|].
    split; [exists ts; split; [assumption | lia]|].
    split; [rewrite Hu | rewrite Hi]; discriminate.
  - intros [c [-> [Hcred [Hdec [[ts [Hexp Hnow]] [Hu Hi]]]]]].
    destruct (HTTPAuthorizationCredentials.credentials c) as [|a token] eqn:Hc;
      [contradiction|]. cbn [str_bool negb].
    rewrite Hdec, Hexp.
    destruct (Z.ltb_spec (datetime_fromtimestamp ts) now) as [Hlt|Hge]; [lia|].
    destruct (Payload.username payload); [|contradiction].
    destruct (Payload.user_id payload); [|contradiction].
    reflexivity.
Qed.

(** X2: [validate_token] has five outcomes: the payload, or a 401 with
    one of four details; it never fails with another status. *)
Theorem validate_token_outcomes
    (settings : Settings.t)
    (jwt_decode : string -> string -> list string -> Z -> option Payload.t)
    (credentials : option HTTPAuthorizationCredentials.t) (now : Z) :
  (exists payload,
     validate_token settings jwt_decode credentials now = Ok payload)
  \/ exists detail,
       validate_token settings jwt_decode credentials now
       = Raise (HTTPException 401 detail)
       /\ In detail ["Not authenticated"; "Token is invalid or expired.";
                     "Token expired"; "Token payload is invalid."].
Proof.
  unfold validate_token.
  destruct credentials as [c|];
    [|right; eexists; split; [reflexivity | cbn; auto]].
  destruct (negb _); [right; eexists; split; [reflexivity | cbn; auto]|].
  destruct (jwt_decode _ _ _ _) as [payload|];
    [|right; eexists; split; [reflexivity | cbn; auto]].
  destruct (match Payload.exp payload with None => true | Some ts => _ end);
    [right; eexists; split; [reflexivity | cbn; auto]|].
  destruct (is_None _ || is_None _);
    [right; eexists; split; [reflexivity | cbn; auto] | left; eauto].
Qed.

(** X3: a decoded token is rejected with 401 "Token payload is invalid."
    exactly when it has not expired and lacks [username] or [user_id];
    for a token that has expired and lacks them, the expiry is what is
    reported. *)
Theorem validate_token_payload_invalid_iff
    (settings : Settings.t)
    (jwt_decode : string -> string -> list string -> Z -> option Payload.t)
    (c : HTTPAuthorizationCredentials.t) (now : Z) (payload : Payload.t) :
  str_bool (HTTPAuthorizationCredentials.credentials c) = true ->
  jwt_decode (HTTPAuthorizationCredentials.credentials c)
    (Settings.JWT_SECRET_KEY settings) [Settings.ALGORITHM settings] now
  = Some payload ->
  (validate_token settings jwt_decode (Some c) now
   = Raise (HTTPException 401 "Token payload is invalid.")
   <-> (exists ts, Payload.exp payload = Some ts
                   /\ now <= datetime_fromtimestamp ts)
       /\ (Payload.username payload = None \/ Payload.user_id payload = None)).
Proof.
  intros Hcred Hdec. unfold validate_token. rewrite Hcred, Hdec. cbn [negb].
  destruct (Payload.exp payload) as [ts|] eqn:Hexp.
  - destruct (Z.ltb_spec (datetime_fromtimestamp ts) now) as [Hlt|Hge].
    + split; [discriminate|]. intros [[ts' [[= <-] Hnow]] _]. lia.
    + destruct (Payload.username payload) as [u|];
        destruct (Payload.user_id payload) as [i|]; cbn.
      * split; [discriminate | intros [_ [H | H]]; discriminate].
      * split; [|reflexivity]. intros _. split; [exists ts; split; [reflexivity | lia] | now right].
      * split; [|reflexivity]. intros _. split; [exists ts; split; [reflexivity | lia] | now left].
      * split; [|reflexivity]. intros _. split; [exists ts; split; [reflexivity | lia] | now left].
  - split; [discriminate|]. intros [[ts [Habs _]] _]. discriminate.
Qed.

Lemma validate_token_payload_invalid_iff_witness :
  validate_token Scenario.settings Cases.jwt_decode
    (Scenario.bearer "nameless") Scenario.before_expiry
  = Raise (HTTPException 401 "Token payload is invalid.")
  <-> (exists ts, Payload.exp Cases.nameless = Some ts
                  /\ Scenario.before_expiry <= datetime_fromtimestamp ts)
      /\ (Payload.username Cases.nameless = None
          \/ Payload.user_id Cases.nameless = None).
Proof.
  apply (validate_token_payload_invalid_iff Scenario.settings Cases.jwt_decode
           {| HTTPAuthorizationCredentials.scheme := "Bearer";
              HTTPAuthorizationCredentials.credentials := "nameless" |}
           Scenario.before_expiry Cases.nameless);
    reflexivity.
Defined.

Example validate_token_expired_before_invalid :
  validate_token Scenario.settings Cases.jwt_decode
    (Scenario.bearer "nameless") Scenario.after_expiry
  = Raise (HTTPException 401 "Token expired").
Proof. reflexivity. Qed.

(** ** Role and permission guards *)

Lemma check_roles_cases (required : list string) (payload : Payload.t) :
  let user_roles := get_default (Payload.roles payload) [] in
  (any (fun r => py_in r user_roles) required = true
   /\ check_roles required payload = Ok tt)
  \/ (any (fun r => py_in r user_roles) required = false
      /\ check_roles required payload
         = Raise (HTTPException 403
                    "Operation not permitted because of insufficient roles")).
Proof.
  unfold check_roles. cbn zeta.
  destruct (any _ required); [left | right]; split; reflexivity.
Qed.

(** X4: [check_roles] succeeds if and only if one of the required roles
    is among the token's roles (a missing [roles] claim counts as no
    role); otherwise it raises 403 "insufficient roles"; there is no
    other outcome. *)
Theorem check_roles_iff_intersection
    (required : list string) (payload : Payload.t) :
  let user_roles := get_default (Payload.roles payload) [] in
  let intersects := exists r, In r required /\ In r user_roles in
  (check_roles required payload = Ok tt <-> intersects)
  /\ (check_roles required payload
      = Raise (HTTPException 403
                 "Operation not permitted because of insufficient roles")
      <-> ~ intersects)
  /\ (check_roles required payload = Ok tt
      \/ check_roles required payload
         = Raise (HTTPException 403
                    "Operation not permitted because of insufficient roles")).
Proof.
  cbn zeta.
  destruct (check_roles_cases required payload) as [[Hany ->] | [Hany ->]].
  - apply any_py_in_intersects in Hany. repeat split; auto.
    + discriminate.
    + intros Hn. contradiction.
  - assert (Hno : ~ exists r, In r required
                     /\ In r (get_default (Payload.roles payload) [])).
    { intros H. apply any_py_in_intersects in H. congruence. }
    repeat split; auto.
    + discriminate.
    + intros H. contradiction.
Qed.

(** X5: the guard of a route runs the token validation first: a token
    that does not validate gets the validator's 401, whatever the route
    requires, and the permission check decides only for a token that has
    validated; a 403 is never the answer to an invalid token. *)
Theorem permission_dependency_validates_first
    (settings : Settings.t)
    (jwt_decode : string -> string -> list string -> Z -> option Payload.t)
    (required : list string)
    (credentials : option HTTPAuthorizationCredentials.t) (now : Z) :
  (exists detail,
     validate_token settings jwt_decode credentials now
     = Raise (HTTPException 401 detail)
     /\ permission_dependency settings jwt_decode required credentials now
        = Raise (HTTPException 401 detail))
  \/ (exists payload,
        validate_token settings jwt_decode credentials now = Ok payload
        /\ ((permission_dependency settings jwt_decode required credentials now
             = Ok tt
             /\ exists p, In p required
                          /\ In p (get_default (Payload.permissions payload) []))
            \/ (permission_dependency settings jwt_decode required credentials now
                = Raise Forbidden
                /\ ~ exists p, In p required
                               /\ In p (get_default (Payload.permissions payload) [])))).
Proof.
  unfold permission_dependency.
  destruct (validate_token settings jwt_decode credentials now) as [payload|e] eqn:Hv.
  - right. exists payload. split; [reflexivity|].
    destruct (check_permissions_cases required payload) as [[Hany ->] | [Hany ->]].
    + left. split; [reflexivity|]. now apply any_py_in_intersects.
    + right. split; [reflexivity|]. intros H.
      apply any_py_in_intersects in H. congruence.
  - left. destruct (validate_token_raises_401 settings jwt_decode credentials now e Hv)
      as [detail ->]. exists detail. now split.
Qed.



(** ** Order creation on any database *)

Lemma find_none_of_existsb {A : Type} (f : A -> bool) (l : list A) :
  existsb f l = false -> find f l = None.
Proof.
  induction l as [|x rest IH]; [reflexivity|].
  cbn. destruct (f x); [discriminate | exact IH].
Qed.

Lemma firstn_map_prefix {A B : Type} (f : A -> B) (before : list A) (x : A)
    (after : list A) :
  firstn (S (List.length before)) (map f (before ++ x :: after))
  = map f (before ++ [x]).
Proof.
  rewrite firstn_map. f_equal.
  replace (before ++ x :: after) with ((before ++ [x]) ++ after)
    by now rewrite <- app_assoc.
  replace (S (List.length before)) with (List.length (before ++ [x]) + 0)%nat
    by (rewrite length_app; cbn; lia).
  rewrite firstn_app_2. cbn. now rewrite app_nil_r.
Qed.

(** The flush of the header: the key is free, or the insert is refused. *)
Lemma flush_header_fresh now d h :
  existsb (fun row => OrderHeader.order_id row =? Database.order_id_seq d)
    (Database.order_headers d) = false ->
  Db.flush now (Db.add_header h (Session.open d))
  = (Ok [Database.order_id_seq d], staged now d h).
Proof.
  intros Hfresh. unfold Db.flush, Db.add_header, Session.open. cbn.
  unfold Db.insert_header, Session.visible_headers. cbn.
  rewrite app_nil_r, Hfresh. reflexivity.
Qed.

Lemma flush_header_conflict now d h :
  existsb (fun row => OrderHeader.order_id row =? Database.order_id_seq d)
    (Database.order_headers d) = true ->
  exists s,
    Db.flush now (Db.add_header h (Session.open d))
    = (Raise (IntegrityError "order_headers_pkey"), s)
    /\ Db.close s = rolled_back d.
Proof.
  intros Htaken. eexists. split.
  - unfold Db.flush, Db.add_header, Session.open. cbn.
    unfold Db.insert_header, Session.visible_headers. cbn.
    rewrite app_nil_r, Htaken. reflexivity.
  - reflexivity.
Qed.

(** The insertion of the pending lines: all of them, or an integrity
    error that leaves the stored database alone. *)
Lemma insert_lines_outcome now new_order_id items : forall index s,
  Db.insert_lines now (transient_lines new_order_id index items) s
  = (Ok tt, inserted s (line_rows now new_order_id index items))
  \/ exists m s',
       Db.insert_lines now (transient_lines new_order_id index items) s
       = (Raise (IntegrityError m), s')
       /\ Session.database s' = Session.database s.
Proof.
  induction items as [|item rest IH]; intros index s.
  - left. cbn. destruct s. unfold inserted. cbn. now rewrite app_nil_r.
  - cbn [transient_lines line_rows Db.insert_lines]. unfold Db.insert_line.
    destruct (existsb (OrderLine.has_key _) _); [right; eauto|].
    destruct (negb _); [right; eauto|].
    match goal with
    | |- context [Db.insert_lines now _ ?s1] =>
        destruct (IH (index + 1) s1) as [-> | [m [s' [-> Hdb]]]]
    end.
    + left. unfold inserted. cbn. now rewrite <- app_assoc.
    + right. exists m, s'. split; [reflexivity | exact Hdb].
Qed.

Lemma commit_outcome now d h items :
  Db.commit now
    (pending (staged now d h)
       (transient_lines (Database.order_id_seq d) 0 items))
  = (Ok tt,
     Session.open
       {| Database.order_headers :=
            Database.order_headers d
            ++ [{| OrderHeader.order_id := Database.order_id_seq d;
                   OrderHeader.user_id := OrderHeader.new_user_id h;
                   OrderHeader.total_items := OrderHeader.new_total_items h;
                   OrderHeader.created_at := now;
                   OrderHeader.updated_at := None |}];
          Database.order_lines :=
            Database.order_lines d
            ++ line_rows now (Database.order_id_seq d) 0 items;
          Database.order_id_seq := Database.order_id_seq d + 1 |})
  \/ exists m s',
       Db.commit now
         (pending (staged now d h)
            (transient_lines (Database.order_id_seq d) 0 items))
       = (Raise (IntegrityError m), s')
       /\ Db.close s' = rolled_back d.
Proof.
  unfold Db.commit, Db.flush.
  cbn [pending staged Session.new_headers Session.new_lines Db.insert_headers app].
  match goal with
  | |- context [Db.insert_lines now _ ?s1] =>
      destruct (insert_lines_outcome now (Database.order_id_seq d) items 0 s1)
        as [-> | [m [s' [-> Hdb]]]]
  end.
  - left. reflexivity.
  - right. exists m, s'. split; [reflexivity|].
    unfold Db.close, Db.rollback. cbn. rewrite Hdb. reflexivity.
Qed.

Section CreateOrderOutcome.

Variable settings : Settings.t.
Variable inventory : InventoryService.
Variable authorization : option string.

Let call := patch_call settings authorization.

Ltac enter_loop_fresh req Hfresh :=
  unfold create_order, try_except, create_order_try;
  change {| OrderHeader.new_user_id := OrderHeaderCreateRequest.user_id req;
            OrderHeader.new_total_items :=
              Z.of_nat (List.length (OrderHeaderCreateRequest.order_lines req)) |}
    with (new_order req);
  unfold bind at 1; unfold db_add_header, modify_session at 1;
  cbn [World.session World.outbound world];
  unfold bind at 1; unfold db_flush, db_step;
  cbn [World.session World.outbound];
  rewrite (flush_header_fresh _ _ _ Hfresh); cbn [hd];
  unfold bind at 1;
  match goal with
  | |- context [for_enumerate ?f ?i ?l ?w] =>
      match w with
      | {| World.session := ?s; World.outbound := ?c |} =>
          change w with (world s c)
      end
  end.

(** Every run of [create_order]: what it returns, the session it
    leaves, the calls it has issued. *)
Lemma create_order_outcome now d order_request :
  let planned := map call (OrderHeaderCreateRequest.order_lines order_request) in
  exists r s calls,
    create_order settings inventory now order_request authorization
      (world (Session.open d) [])
    = (r, world s calls)
    /\ (exists k, calls = firstn k planned)
    /\ ((r = Ok {| message := "Order created successfully";
                   order := Database.order_id_seq d |}
         /\ Db.close s = committed now d order_request
         /\ calls = planned)
        \/ ((exists detail, r = Raise (HTTPException 400 detail))
            /\ Db.close s = rolled_back d)
        \/ (r = Raise (HTTPException 500
                         "An error occurred while processing the checkout.")
            /\ Db.close s = rolled_back d)).
Proof.
  intros planned.
  destruct (existsb (fun row => OrderHeader.order_id row =? Database.order_id_seq d)
              (Database.order_headers d)) eqn:Hkey.
  - (* the header's key is taken *)
    destruct (flush_header_conflict now d (new_order order_request) Hkey)
      as [s [Hflush Hclose]].
    exists (Raise (HTTPException 400 "order_headers_pkey")), s, [].
    split; [|split; [exists 0%nat; reflexivity | right; left; split; eauto]].
    unfold create_order, try_except, create_order_try.
    unfold bind at 1; unfold db_add_header, modify_session at 1.
    cbn [World.session World.outbound world].
    unfold bind at 1; unfold db_flush, db_step.
    cbn [World.session World.outbound].
    change {| OrderHeader.new_user_id :=
                OrderHeaderCreateRequest.user_id order_request;
              OrderHeader.new_total_items :=
                Z.of_nat (List.length
                            (OrderHeaderCreateRequest.order_lines order_request)) |}
      with (new_order order_request).
    rewrite Hflush. reflexivity.
  - destruct (replay_cases inventory call
                (OrderHeaderCreateRequest.order_lines order_request) [])
      as [Hall | [before [item [after [outcome [Hlines [Hreplay Hout]]]]]]].
    + (* every call accepted: the commit decides *)
      destruct (commit_outcome now d (new_order order_request)
                  (OrderHeaderCreateRequest.order_lines order_request))
        as [Hcommit | [m [s' [Hcommit Hclose]]]].
      * exists (Ok {| message := "Order created successfully";
                      order := Database.order_id_seq d |}),
          (Session.open (committed now d order_request)), planned.
        split; [|split; [exists (List.length planned); now rewrite firstn_all
                        | left; repeat split]].
        enter_loop_fresh order_request Hkey.
        rewrite (loop_all_accepted settings inventory authorization _ _ _ _ _ Hall).
        cbn [app]. unfold bind at 1. unfold db_commit, db_step.
        cbn [world World.session World.outbound].
        rewrite Hcommit.
        unfold bind at 1. unfold db_first_header at 1.
        cbn [World.session World.outbound].
        change (Session.open _) with (Session.open (committed now d order_request)).
        unfold Db.first_header, Session.visible_headers. cbn.
        rewrite app_nil_r, (find_app_none _ _ _ (find_none_of_existsb _ _ Hkey)).
        cbn. now rewrite Z.eqb_refl.
      * exists (Raise (HTTPException 400 m)), s', planned.
        split; [|split; [exists (List.length planned); now rewrite firstn_all
                        | right; left; split; eauto]].
        enter_loop_fresh order_request Hkey.
        rewrite (loop_all_accepted settings inventory authorization _ _ _ _ _ Hall).
        cbn [app]. unfold bind at 1. unfold db_commit, db_step.
        cbn [world World.session World.outbound].
        rewrite Hcommit. reflexivity.
    + assert (Hprefix : map call (before ++ [item])
                        = firstn (S (List.length before)) planned).
      { unfold planned. rewrite Hlines. symmetry. apply firstn_map_prefix. }
      destruct outcome as [code|m].
      * (* first rejection *)
        assert (Hcode : code <> 200) by congruence.
        exists (Raise (HTTPException 400 "Failed to update item quantity")),
          (Session.open (rolled_back d)), (map call (before ++ [item])).
        split; [|split; [eauto | right; left; split; eauto]].
        enter_loop_fresh order_request Hkey. rewrite Hlines.
        rewrite (loop_first_rejection settings inventory authorization _ _ _ _ after
                   _ _ _ Hreplay Hcode).
        reflexivity.
      * (* no response *)
        exists (Raise (HTTPException 500
                         "An error occurred while processing the checkout.")),
          (pending (staged now d (new_order order_request))
             (transient_lines (Database.order_id_seq d) 0 (before ++ [item]))),
          (map call (before ++ [item])).
        split; [|split; [eauto | right; right; split; reflexivity]].
        enter_loop_fresh order_request Hkey. rewrite Hlines.
        rewrite (loop_first_unreachable settings inventory authorization _ _ _ _ after
                   _ _ _ Hreplay).
        reflexivity.
Qed.

End CreateOrderOutcome.

(** ** Request validation *)

Lemma field_gt0_nil name v : field_gt0 name v = [] <-> 0 < v.
Proof.
  unfold field_gt0. destruct (Z.ltb_spec 0 v); split; intros Hv;
    try reflexivity; try assumption; try discriminate; lia.
Qed.

Lemma lines_validate_nil (lines : list OrderLineCreateRequest.t) :
  flat_map OrderLineCreateRequest_validate lines = []
  <-> Forall (fun l => 0 < OrderLineCreateRequest.item_id l
                       /\ 0 < OrderLineCreateRequest.quantity l) lines.
Proof.
  induction lines as [|l rest IH]; cbn.
  - split; [constructor | reflexivity].
  - unfold OrderLineCreateRequest_validate at 1. split.
    + intros H. apply app_eq_nil in H. destruct H as [Hl Hrest].
      apply app_eq_nil in Hl. destruct Hl as [Hi Hq].
      apply field_gt0_nil in Hi, Hq.
      constructor; [now split | now apply IH].
    + intros H. inversion H as [|? ? [Hi Hq] Hrest]; subst.
      apply (field_gt0_nil "item_id") in Hi.
      apply (field_gt0_nil "quantity") in Hq.
      rewrite Hi, Hq. cbn. now apply IH.
Qed.

Lemma validate_nil_inv (r : OrderHeaderCreateRequest.t) :
  OrderHeaderCreateRequest_validate r = [] ->
  0 < OrderHeaderCreateRequest.user_id r
  /\ (forall t, OrderHeaderCreateRequest.total_items r = Some t -> 0 < t)
  /\ OrderHeaderCreateRequest.order_lines r <> []
  /\ Forall (fun l => 0 < OrderLineCreateRequest.item_id l
                      /\ 0 < OrderLineCreateRequest.quantity l)
       (OrderHeaderCreateRequest.order_lines r).
Proof.
  unfold OrderHeaderCreateRequest_validate.
  intros H. apply app_eq_nil in H. destruct H as [Hu H].
  apply app_eq_nil in H. destruct H as [Ht Hl].
  apply field_gt0_nil in Hu. split; [exact Hu|]. split.
  - intros t Hsome. rewrite Hsome in Ht. now apply (field_gt0_nil "total_items").
  - destruct (flat_map _ _) eqn:Hitems; [|discriminate].
    apply lines_validate_nil in Hitems. split; [|exact Hitems].
    intros Hnil. rewrite Hnil in Hl. discriminate.
Qed.

(** X7: a body is valid exactly when [user_id] is positive, a supplied
    [total_items] is positive, there is at least one line, and every
    line has a positive [item_id] and a positive [quantity]. *)
Theorem OrderHeaderCreateRequest_valid_iff (r : OrderHeaderCreateRequest.t) :
  OrderHeaderCreateRequest_validate r = []
  <-> 0 < OrderHeaderCreateRequest.user_id r
      /\ (forall t, OrderHeaderCreateRequest.total_items r = Some t -> 0 < t)
      /\ OrderHeaderCreateRequest.order_lines r <> []
      /\ Forall (fun l => 0 < OrderLineCreateRequest.item_id l
                          /\ 0 < OrderLineCreateRequest.quantity l)
           (OrderHeaderCreateRequest.order_lines r).
Proof.
  split; [apply validate_nil_inv|].
  unfold OrderHeaderCreateRequest_validate.
  intros [Hu [Ht [Hne Hitems]]].
  apply (field_gt0_nil "user_id") in Hu. rewrite Hu. cbn [app].
  apply lines_validate_nil in Hitems. rewrite Hitems.
  assert (Htotal : optional_field_gt0 "total_items"
                     (OrderHeaderCreateRequest.total_items r) = []).
  { destruct (OrderHeaderCreateRequest.total_items r) as [t|]; [|reflexivity].
    cbn. apply field_gt0_nil. now apply Ht. }
  rewrite Htotal. cbn [app].
  destruct (OrderHeaderCreateRequest.order_lines r) as [|l rest];
    [contradiction|].
  unfold check_list_items_not_empty.
  destruct (Z.ltb_spec (Z.of_nat (List.length (l :: rest))) 1) as [Hlt|Hge];
    [cbn [List.length] in Hlt; lia | reflexivity].
Qed.

(** X8: a body with a [user_id], a supplied [total_items], an [item_id]
    or a [quantity] that is not positive never reaches [create_order]:
    the route answers with validation errors, the database is as it was
    and no inventory call has been made. *)
Theorem post_orders_invalid_body
    (settings : Settings.t) (inventory : InventoryService) (now : Z)
    (d : Database.t) (body : OrderHeaderCreateRequest.t)
    (authorization : option string) :
  OrderHeaderCreateRequest.user_id body <= 0
  \/ (exists t, OrderHeaderCreateRequest.total_items body = Some t /\ t <= 0)
  \/ Exists (fun l => OrderLineCreateRequest.item_id l <= 0
                      \/ OrderLineCreateRequest.quantity l <= 0)
       (OrderHeaderCreateRequest.order_lines body) ->
  exists errors,
    errors <> []
    /\ post_orders settings inventory now d body authorization
       = (Raise (RequestValidationError errors), d, []).
Proof.
  intros Hbad. exists (OrderHeaderCreateRequest_validate body).
  assert (Hinvalid : OrderHeaderCreateRequest_validate body <> []).
  { intros Hnil. destruct (validate_nil_inv body Hnil) as [Hu [Ht [_ Hitems]]].
    destruct Hbad as [Hbad | [[t [Hsome Hbad]] | Hbad]].
    - lia.
    - specialize (Ht t Hsome). lia.
    - apply Exists_exists in Hbad. destruct Hbad as [l [Hin Hl]].
      rewrite Forall_forall in Hitems. specialize (Hitems l Hin). lia. }
  split; [exact Hinvalid|]. unfold post_orders.
  destruct (OrderHeaderCreateRequest_validate body); [contradiction | reflexivity].
Qed.

Lemma post_orders_invalid_body_witness :
  exists errors,
    errors <> []
    /\ post_orders Scenario.settings Scenario.accepts_all 300 Scenario.stored
         Cases.zero_quantity Scenario.authorization
       = (Raise (RequestValidationError errors), Scenario.stored, []).
Proof.
  apply (post_orders_invalid_body Scenario.settings Scenario.accepts_all 300
           Scenario.stored Cases.zero_quantity Scenario.authorization).
  right. right. apply Exists_cons_tl. apply Exists_cons_hd. right. cbn. lia.
Defined.

(** ** Order creation: failures, atomicity, calls *)

(** X9: when the inventory service gives no response for line k (the
    lines before it returned 200), the request fails with a 500, k calls
    have been issued, and no row of the request is stored: the handler
    does not roll back on this path, closing the session does. *)
Theorem create_order_inventory_unreachable
    (settings : Settings.t) (inventory : InventoryService) (now : Z)
    (d : Database.t) (order_request : OrderHeaderCreateRequest.t)
    (authorization : option string)
    (before : list OrderLineCreateRequest.t) (item : OrderLineCreateRequest.t)
    (after : list OrderLineCreateRequest.t) (m : string) :
  sequence_ahead d ->
  OrderHeaderCreateRequest.order_lines order_request = before ++ item :: after ->
  replay inventory [] (map (patch_call settings authorization) (before ++ [item]))
  = map (fun _ => Responded 200) before ++ [ConnectionFailed m] ->
  exists d',
    run_with_db d (create_order settings inventory now order_request authorization)
    = (Raise (HTTPException 500 "An error occurred while processing the checkout."),
       d',
       firstn (S (List.length before))
         (planned_calls settings authorization order_request))
    /\ Database.order_headers d' = Database.order_headers d
    /\ Database.order_lines d' = Database.order_lines d.
Proof.
  intros Hahead Hlines Hreplay.
  destruct (create_order_first_unreachable settings inventory authorization now d
              order_request before item m after Hahead Hlines Hreplay)
    as [s [Hrun Hclose]].
  exists (rolled_back d). repeat split.
  unfold run_with_db.
  change {| World.session := Session.open d; World.outbound := [] |}
    with (world (Session.open d) []).
  rewrite Hrun. cbn [world World.session World.outbound]. rewrite Hclose.
  unfold planned_calls. rewrite Hlines. now rewrite firstn_map_prefix.
Qed.

Lemma create_order_inventory_unreachable_witness :
  exists d',
    run_with_db Scenario.stored
      (create_order Scenario.settings (Scenario.unreachable_for 789) 300
         Scenario.three_lines Scenario.authorization)
    = (Raise (HTTPException 500 "An error occurred while processing the checkout."),
       d',
       firstn (S (List.length [Scenario.item 456 2]))
         (planned_calls Scenario.settings Scenario.authorization
            Scenario.three_lines))
    /\ Database.order_headers d' = Database.order_headers Scenario.stored
    /\ Database.order_lines d' = Database.order_lines Scenario.stored.
Proof.
  apply (create_order_inventory_unreachable Scenario.settings
           (Scenario.unreachable_for 789) 300 Scenario.stored
           Scenario.three_lines Scenario.authorization
           [Scenario.item 456 2] (Scenario.item 789 1) [Scenario.item 321 5]
           "connection refused").
  - exact stored_sequence_ahead.
  - reflexivity.
  - reflexivity.
Defined.

Lemma run_with_db_outcome {A : Type} (d : Database.t) (handler : M A)
    (r : Result A) (s : Session.t) (calls : list PatchCall.t) :
  handler (world (Session.open d) []) = (r, world s calls) ->
  run_with_db d handler = (r, Db.close s, calls).
Proof.
  intros H. unfold run_with_db.
  change {| World.session := Session.open d; World.outbound := [] |}
    with (world (Session.open d) []).
  now rewrite H.
Qed.

(** X10: on every database and whatever the inventory service answers,
    [create_order] is all or nothing: it returns the new order id and
    the stored rows are those of before plus the header and every line
    of the request, or it fails with a 400 or with the 500 of the
    handler and the stored rows are those of before.  In particular the
    re-fetch after the commit never misses. *)
Theorem create_order_all_or_nothing
    (settings : Settings.t) (inventory : InventoryService) (now : Z)
    (d : Database.t) (order_request : OrderHeaderCreateRequest.t)
    (authorization : option string) :
  exists r d' calls,
    run_with_db d (create_order settings inventory now order_request authorization)
    = (r, d', calls)
    /\ ((r = Ok {| message := "Order created successfully";
                   order := Database.order_id_seq d |}
         /\ Database.order_headers d'
            = Database.order_headers d ++ [header_row now d order_request]
         /\ Database.order_lines d'
            = Database.order_lines d
              ++ line_rows now (Database.order_id_seq d) 0
                   (OrderHeaderCreateRequest.order_lines order_request))
        \/ (((exists detail, r = Raise (HTTPException 400 detail))
             \/ r = Raise (HTTPException 500
                             "An error occurred while processing the checkout."))
            /\ Database.order_headers d' = Database.order_headers d
            /\ Database.order_lines d' = Database.order_lines d)).
Proof.
  destruct (create_order_outcome settings inventory authorization now d order_request)
    as [r [s [calls [Hrun [_ Hcases]]]]].
  exists r, (Db.close s), calls.
  split; [now apply run_with_db_outcome|].
  destruct Hcases as [[-> [-> _]] | [[Hr ->] | [-> ->]]].
  - left. repeat split.
  - right. split; [now left | now split].
  - right. split; [now right | now split].
Qed.

(** X11: the outbound calls of a request are a prefix of its planned
    calls: at most one call per line, in input order, each to the
    configured inventory URL with the line's [item_id] and [quantity] and
    the caller's Authorization header, unchanged; a successful request
    has issued all of them. *)
Theorem create_order_calls_are_a_prefix
    (settings : Settings.t) (inventory : InventoryService) (now : Z)
    (d : Database.t) (order_request : OrderHeaderCreateRequest.t)
    (authorization : option string) :
  let outcome :=
    run_with_db d (create_order settings inventory now order_request authorization) in
  let planned :=
    map (fun item =>
           {| PatchCall.base_url := Settings.INVENTORY_SERVICE_BASE_URL settings;
              PatchCall.item_id := OrderLineCreateRequest.item_id item;
              PatchCall.change_quantity := OrderLineCreateRequest.quantity item;
              PatchCall.authorization := authorization |})
      (OrderHeaderCreateRequest.order_lines order_request) in
  exists k,
    (k <= List.length (OrderHeaderCreateRequest.order_lines order_request))%nat
    /\ snd outcome = firstn k planned
    /\ List.length (snd outcome) = k
    /\ ((exists response, fst (fst outcome) = Ok response) ->
        snd outcome = planned).
Proof.
  intros outcome planned.
  destruct (create_order_outcome settings inventory authorization now d order_request)
    as [r [s [calls [Hrun [[k Hk] Hcases]]]]].
  apply run_with_db_outcome in Hrun.
  change (map (patch_call settings authorization)
            (OrderHeaderCreateRequest.order_lines order_request))
    with planned in Hk, Hcases.
  unfold outcome. rewrite Hrun. cbn [fst snd].
  exists (Nat.min k (List.length planned)).
  assert (Hlen : List.length planned
                 = List.length (OrderHeaderCreateRequest.order_lines order_request))
    by (unfold planned; apply length_map).
  repeat split.
  - rewrite <- Hlen. apply Nat.le_min_r.
  - rewrite Hk. destruct (Nat.le_ge_cases k (List.length planned)) as [Hle | Hge].
    + now rewrite Nat.min_l.
    + rewrite Nat.min_r by exact Hge. now rewrite !firstn_all2 by lia.
  - rewrite Hk. apply length_firstn.
  - intros [response Hok].
    destruct Hcases as [[_ [_ ->]] | [[[detail ->] _] | [-> _]]];
      [reflexivity | discriminate | discriminate].
Qed.

(** X12: when the key the sequence generates is already stored (the
    sequence has fallen behind), the header insert is refused: the
    request fails with a 400 before any inventory call, and the stored
    rows are those of before. *)
Theorem create_order_key_conflict
    (settings : Settings.t) (inventory : InventoryService) (now : Z)
    (d : Database.t) (order_request : OrderHeaderCreateRequest.t)
    (authorization : option string) :
  (exists row, In row (Database.order_headers d)
               /\ OrderHeader.order_id row = Database.order_id_seq d) ->
  exists detail d',
    run_with_db d (create_order settings inventory now order_request authorization)
    = (Raise (HTTPException 400 detail), d', [])
    /\ Database.order_headers d' = Database.order_headers d
    /\ Database.order_lines d' = Database.order_lines d.
Proof.
  intros [row [Hin Hid]].
  assert (Hkey : existsb
            (fun row => OrderHeader.order_id row =? Database.order_id_seq d)
            (Database.order_headers d) = true).
  { apply existsb_exists. exists row. split; [exact Hin | now apply Z.eqb_eq]. }
  destruct (flush_header_conflict now d (new_order order_request) Hkey)
    as [s [Hflush Hclose]].
  exists "order_headers_pkey", (rolled_back d). repeat split.
  rewrite <- Hclose. apply run_with_db_outcome.
  unfold create_order, try_except, create_order_try.
  change {| OrderHeader.new_user_id :=
              OrderHeaderCreateRequest.user_id order_request;
            OrderHeader.new_total_items :=
              Z.of_nat (List.length
                          (OrderHeaderCreateRequest.order_lines order_request)) |}
    with (new_order order_request).
  unfold bind at 1; unfold db_add_header, modify_session at 1.
  cbn [World.session World.outbound world].
  unfold bind at 1; unfold db_flush, db_step.
  cbn [World.session World.outbound].
  rewrite Hflush. reflexivity.
Qed.

Lemma create_order_key_conflict_witness :
  exists detail d',
    run_with_db Cases.out_of_step
      (create_order Scenario.settings Scenario.accepts_all 300
         Scenario.two_lines Scenario.authorization)
    = (Raise (HTTPException 400 detail), d', [])
    /\ Database.order_headers d' = Database.order_headers Cases.out_of_step
    /\ Database.order_lines d' = Database.order_lines Cases.out_of_step.
Proof.
  apply (create_order_key_conflict Scenario.settings Scenario.accepts_all 300
           Cases.out_of_step Scenario.two_lines Scenario.authorization).
  exists (Scenario.header 2 1 200). split; [right; left; reflexivity | reflexivity].
Defined.

(** ** The invariants of the stored orders *)

Lemma create_order_keeps_sequence_ahead_witness :
  let d' := snd (fst (run_with_db Scenario.stored
                        (create_order Scenario.settings (Scenario.rejects 789) 300
                           Scenario.three_lines Scenario.authorization))) in
  (d' = committed 300 Scenario.stored Scenario.three_lines
   \/ d' = rolled_back Scenario.stored)
  /\ sequence_ahead d'.
Proof.
  apply (create_order_keeps_sequence_ahead Scenario.settings (Scenario.rejects 789)
           300 Scenario.stored Scenario.three_lines Scenario.authorization).
  exact stored_sequence_ahead.
Defined.

Lemma relationship_committed_old now d order_request header :
  OrderHeader.order_id header < Database.order_id_seq d ->
  relationship_order_lines (committed now d order_request) header
  = relationship_order_lines d header.
Proof.
  intros Hold. unfold relationship_order_lines. cbn [committed Database.order_lines].
  rewrite filter_app, (filter_none _ (line_rows _ _ _ _)); [apply app_nil_r|].
  eapply Forall_impl; [|apply line_rows_order_id].
  cbv beta. intros row ->. apply Z.eqb_neq. lia.
Qed.

Lemma relationship_committed_new now d order_request :
  sequence_ahead d ->
  relationship_order_lines (committed now d order_request)
    (header_row now d order_request)
  = line_rows now (Database.order_id_seq d) 0
      (OrderHeaderCreateRequest.order_lines order_request).
Proof.
  intros [_ Hlines]. unfold relationship_order_lines.
  cbn [committed Database.order_lines header_row OrderHeader.order_id].
  rewrite filter_app, filter_none, filter_all; [reflexivity | |].
  - eapply Forall_impl; [|apply line_rows_order_id].
    cbv beta. intros row ->. apply Z.eqb_refl.
  - eapply Forall_impl; [|exact Hlines].
    cbv beta. intros row Hlt. apply Z.eqb_neq. lia.
Qed.

Lemma committed_orders_consistent now d order_request :
  sequence_ahead d -> orders_consistent d ->
  orders_consistent (committed now d order_request).
Proof.
  intros Hahead Hcons. unfold orders_consistent.
  cbn [committed Database.order_headers]. apply Forall_app. split.
  - destruct Hahead as [Hheaders _].
    unfold orders_consistent in Hcons. rewrite Forall_forall in *.
    intros header Hin. specialize (Hcons header Hin).
    specialize (Hheaders header Hin). cbv beta in Hheaders.
    unfold header_consistent in *.
    now rewrite (relationship_committed_old now d order_request header Hheaders).
  - constructor; [|constructor]. unfold header_consistent.
    rewrite (relationship_committed_new now d order_request Hahead).
    rewrite line_rows_length. split; [reflexivity|].
    rewrite line_rows_numbers. apply map_ext. intros k. lia.
Qed.

Lemma stored_orders_consistent : orders_consistent Scenario.stored.
Proof. repeat constructor. Defined.

(** X13: [create_order] keeps the stored orders consistent: if every
    stored header counts its lines and its lines are numbered 1..n, the
    same holds after any request, whatever the inventory service
    answered. *)
Theorem create_order_keeps_orders_consistent
    (settings : Settings.t) (inventory : InventoryService) (now : Z)
    (d : Database.t) (order_request : OrderHeaderCreateRequest.t)
    (authorization : option string) :
  sequence_ahead d ->
  orders_consistent d ->
  orders_consistent
    (snd (fst (run_with_db d
                 (create_order settings inventory now order_request
                    authorization)))).
Proof.
  intros Hahead Hcons.
  destruct (create_order_outcome settings inventory authorization now d order_request)
    as [r [s [calls [Hrun [_ Hcases]]]]].
  rewrite (run_with_db_outcome d _ r s calls Hrun). cbn [fst snd].
  destruct Hcases as [[_ [-> _]] | [[_ ->] | [_ ->]]].
  - now apply committed_orders_consistent.
  - exact Hcons.
  - exact Hcons.
Qed.

Lemma create_order_keeps_orders_consistent_witness :
  orders_consistent
    (snd (fst (run_with_db Scenario.stored
                 (create_order Scenario.settings Scenario.accepts_all 300
                    Scenario.two_lines Scenario.authorization)))).
Proof.
  apply (create_order_keeps_orders_consistent Scenario.settings
           Scenario.accepts_all 300 Scenario.stored Scenario.two_lines
           Scenario.authorization).
  - exact stored_sequence_ahead.
  - exact stored_orders_consistent.
Defined.

(** ** Reading an order *)

(** X15: an order that has been created can be read back: GET
    /orders/{order_id} with the returned id answers with the request's
    [user_id], the number of lines as [total_items], and the request's
    items in input order, numbered from 1. *)
Theorem create_order_then_get_order
    (settings : Settings.t) (inventory : InventoryService) (now : Z)
    (d : Database.t) (order_request : OrderHeaderCreateRequest.t)
    (authorization : option string) :
  sequence_ahead d ->
  0 < Database.order_id_seq d ->
  replay inventory [] (planned_calls settings authorization order_request)
  = map (fun _ => Responded 200)
      (OrderHeaderCreateRequest.order_lines order_request) ->
  let n := List.length (OrderHeaderCreateRequest.order_lines order_request) in
  exists new_order_id d' response,
    run_with_db d (create_order settings inventory now order_request authorization)
    = (Ok {| message := "Order created successfully"; order := new_order_id |},
       d', planned_calls settings authorization order_request)
    /\ get_order d' new_order_id = Ok response
    /\ OrderHeaderReadRequest.order_id response = new_order_id
    /\ OrderHeaderReadRequest.user_id response
       = OrderHeaderCreateRequest.user_id order_request
    /\ OrderHeaderReadRequest.total_items response = Z.of_nat n
    /\ map OrderLineReadRequest.line_number
         (OrderHeaderReadRequest.order_lines response)
       = map Z.of_nat (seq 1 n)
    /\ map (fun l => (OrderLineReadRequest.item_id l,
                      OrderLineReadRequest.quantity l))
         (OrderHeaderReadRequest.order_lines response)
       = map (fun item => (OrderLineCreateRequest.item_id item,
                           OrderLineCreateRequest.quantity item))
           (OrderHeaderCreateRequest.order_lines order_request).
Proof.
  intros Hahead Hpos Hreplay n.
  exists (Database.order_id_seq d), (committed now d order_request),
    (OrderHeaderReadRequest_from (committed now d order_request)
       (header_row now d order_request)).
  assert (Hget : get_order (committed now d order_request) (Database.order_id_seq d)
                 = Ok (OrderHeaderReadRequest_from (committed now d order_request)
                         (header_row now d order_request))).
  { unfold get_order. apply (field_gt0_nil "order_id") in Hpos. rewrite Hpos.
    unfold read_order, read_order_try.
    now rewrite (first_header_committed now d order_request Hahead). }
  split; [|split; [exact Hget | repeat split]].
  - apply (run_with_db_outcome d _ _ (Session.open (committed now d order_request))).
    exact (create_order_all_accepted settings inventory authorization now d
             order_request Hahead Hreplay).
  - cbn [OrderHeaderReadRequest_from OrderHeaderReadRequest.order_lines].
    rewrite (relationship_committed_new now d order_request Hahead).
    rewrite map_map. cbn [OrderLineReadRequest_from OrderLineReadRequest.line_number].
    apply line_rows_numbers.
  - cbn [OrderHeaderReadRequest_from OrderHeaderReadRequest.order_lines].
    rewrite (relationship_committed_new now d order_request Hahead).
    rewrite map_map.
    cbn [OrderLineReadRequest_from OrderLineReadRequest.item_id
           OrderLineReadRequest.quantity].
    apply line_rows_items.
Qed.

Lemma create_order_then_get_order_witness :
  let n := List.length (OrderHeaderCreateRequest.order_lines Scenario.two_lines) in
  exists new_order_id d' response,
    run_with_db Scenario.stored
      (create_order Scenario.settings Scenario.accepts_all 300
         Scenario.two_lines Scenario.authorization)
    = (Ok {| message := "Order created successfully"; order := new_order_id |},
       d', planned_calls Scenario.settings Scenario.authorization Scenario.two_lines)
    /\ get_order d' new_order_id = Ok response
    /\ OrderHeaderReadRequest.order_id response = new_order_id
    /\ OrderHeaderReadRequest.user_id response
       = OrderHeaderCreateRequest.user_id Scenario.two_lines
    /\ OrderHeaderReadRequest.total_items response = Z.of_nat n
    /\ map OrderLineReadRequest.line_number
         (OrderHeaderReadRequest.order_lines response)
       = map Z.of_nat (seq 1 n)
    /\ map (fun l => (OrderLineReadRequest.item_id l,
                      OrderLineReadRequest.quantity l))
         (OrderHeaderReadRequest.order_lines response)
       = map (fun item => (OrderLineCreateRequest.item_id item,
                           OrderLineCreateRequest.quantity item))
           (OrderHeaderCreateRequest.order_lines Scenario.two_lines).
Proof.
  apply (create_order_then_get_order Scenario.settings Scenario.accepts_all 300
           Scenario.stored Scenario.two_lines Scenario.authorization).
  - exact stored_sequence_ahead.
  - reflexivity.
  - reflexivity.
Defined.

Lemma get_order_ok_inv (d : Database.t) (order_id : Z)
    (response : OrderHeaderReadRequest.t) :
  get_order d order_id = Ok response ->
  exists header,
    In header (Database.order_headers d)
    /\ OrderHeader.order_id header = order_id
    /\ response = OrderHeaderReadRequest_from d header.
Proof.
  unfold get_order. destruct (field_gt0 "order_id" order_id); [|discriminate].
  unfold read_order, read_order_try, Db.first_header, Session.visible_headers.
  cbn [Session.open Session.database Session.tx_headers]. rewrite app_nil_r.
  destruct (find _ _) as [header|] eqn:Hfind; [|discriminate].
  intros [= <-]. apply find_some in Hfind. destruct Hfind as [Hin Hid].
  apply Z.eqb_eq in Hid. now exists header.
Qed.

(** X16: GET /orders/{order_id} has three outcomes: a validation error
    for an id that is not positive; the stored order with that id; a 404
    whose detail names the id when no stored order has it. *)
Theorem get_order_outcomes (d : Database.t) (order_id : Z) :
  (order_id <= 0
   /\ exists errors, get_order d order_id = Raise (RequestValidationError errors))
  \/ (0 < order_id
      /\ exists header,
           In header (Database.order_headers d)
           /\ OrderHeader.order_id header = order_id
           /\ get_order d order_id = Ok (OrderHeaderReadRequest_from d header))
  \/ (0 < order_id
      /\ Forall (fun header => OrderHeader.order_id header <> order_id)
           (Database.order_headers d)
      /\ get_order d order_id
         = Raise (HTTPException 404
                    ("order with id " ++ py_str order_id ++ " not found.")%string)).
Proof.
  unfold get_order, field_gt0.
  destruct (Z.ltb_spec 0 order_id) as [Hpos | Hneg];
    [|left; split; [lia | eauto]].
  right. unfold read_order, read_order_try, Db.first_header, Session.visible_headers.
  cbn [Session.open Session.database Session.tx_headers]. rewrite app_nil_r.
  destruct (find _ _) as [header|] eqn:Hfind.
  - left. apply find_some in Hfind. destruct Hfind as [Hin Hid].
    apply Z.eqb_eq in Hid. split; [exact Hpos|]. exists header. now repeat split.
  - right. split; [exact Hpos|]. split; [|reflexivity].
    apply Forall_forall. intros header Hin Hid.
    apply (find_none _ _ Hfind) in Hin. apply Z.eqb_neq in Hin. contradiction.
Qed.

Example get_order_missing :
  get_order Scenario.stored 7
  = Raise (HTTPException 404 "order with id 7 not found.").
Proof. reflexivity. Qed.

(** X17: on consistent stored orders, the payload GET /orders/{order_id}
    returns has as many [order_lines] as its [total_items] says, all of
    them lines of that order, numbered 1..n. *)
Theorem get_order_lines_match_total_items
    (d : Database.t) (order_id : Z) (response : OrderHeaderReadRequest.t) :
  orders_consistent d ->
  get_order d order_id = Ok response ->
  OrderHeaderReadRequest.order_id response = order_id
  /\ OrderHeaderReadRequest.total_items response
     = Z.of_nat (List.length (OrderHeaderReadRequest.order_lines response))
  /\ map OrderLineReadRequest.line_number
       (OrderHeaderReadRequest.order_lines response)
     = map Z.of_nat
         (seq 1 (List.length (OrderHeaderReadRequest.order_lines response)))
  /\ Forall (fun l => OrderLineReadRequest.order_id l = order_id)
       (OrderHeaderReadRequest.order_lines response).
Proof.
  intros Hcons Hget.
  destruct (get_order_ok_inv d order_id response Hget)
    as [header [Hin [Hid ->]]].
  unfold orders_consistent in Hcons. rewrite Forall_forall in Hcons.
  destruct (Hcons header Hin) as [Htotal Hnumbers].
  cbn [OrderHeaderReadRequest_from OrderHeaderReadRequest.order_id
         OrderHeaderReadRequest.total_items OrderHeaderReadRequest.order_lines].
  rewrite length_map, map_map.
  cbn [OrderLineReadRequest_from OrderLineReadRequest.line_number].
  repeat split; try assumption.
  apply Forall_forall. intros l Hl. apply in_map_iff in Hl.
  destruct Hl as [row [<- Hrow]]. unfold relationship_order_lines in Hrow.
  apply filter_In in Hrow. destruct Hrow as [_ Heq]. apply Z.eqb_eq in Heq.
  cbn. congruence.
Qed.

Lemma get_order_lines_match_total_items_witness :
  let response :=
    OrderHeaderReadRequest_from Scenario.stored (Scenario.header 1 2 100) in
  OrderHeaderReadRequest.order_id response = 1
  /\ OrderHeaderReadRequest.total_items response
     = Z.of_nat (List.length (OrderHeaderReadRequest.order_lines response))
  /\ map OrderLineReadRequest.line_number
       (OrderHeaderReadRequest.order_lines response)
     = map Z.of_nat
         (seq 1 (List.length (OrderHeaderReadRequest.order_lines response)))
  /\ Forall (fun l => OrderLineReadRequest.order_id l = 1)
       (OrderHeaderReadRequest.order_lines response).
Proof.
  apply (get_order_lines_match_total_items Scenario.stored 1
           (OrderHeaderReadRequest_from Scenario.stored (Scenario.header 1 2 100))).
  - exact stored_orders_consistent.
  - reflexivity.
Defined.

(** ** Listing: columns, limits, errors *)

Lemma read_all_orders_recognized_witness :
  let ordered :=
    sort_rows (row_le col_total_items false)
      (Database.order_headers Scenario.stored) in
  read_all_orders Scenario.settings Scenario.stored None (Some "Total_Items") false
  = Ok match @None Z with
       | None => ordered
       | Some n => firstn (Z.to_nat n) ordered
       end
  /\ Sorted (fun a b => row_le col_total_items false a b = true) ordered.
Proof.
  apply (read_all_orders_recognized Scenario.settings Scenario.stored None
           "Total_Items" false col_total_items).
  - right. left. reflexivity.
  - reflexivity.
  - discriminate.
Defined.

Lemma read_all_orders_unlimited settings d order_by ascending :
  exists c,
    getattr_OrderHeader (effective_order_by order_by) = Some c
    /\ read_all_orders settings d None order_by ascending
       = Ok (sort_rows (row_le c ascending) (Database.order_headers d)).
Proof.
  destruct (getattr_effective_order_by order_by) as [c Hc]. exists c.
  split; [exact Hc|].
  rewrite (read_all_orders_on_column settings d None order_by ascending c Hc).
  rewrite (listing_non_negative_limit settings d c ascending None);
    [reflexivity | discriminate].
Qed.

(** X19: without a limit, the listing returns every stored order exactly
    once, whatever [order_by] and [ascending] are: it is a rearrangement
    of the stored headers and it never errors. *)
Theorem read_all_orders_lists_every_order
    (settings : Settings.t) (d : Database.t) (order_by : option string)
    (ascending : bool) :
  exists rows,
    read_all_orders settings d None order_by ascending = Ok rows
    /\ Permutation rows (Database.order_headers d)
    /\ List.length rows = List.length (Database.order_headers d).
Proof.
  destruct (read_all_orders_unlimited settings d order_by ascending)
    as [c [_ Hread]].
  eexists. split; [exact Hread|].
  assert (Hperm := sort_rows_perm (row_le c ascending) (Database.order_headers d)).
  split; [exact Hperm | now apply Permutation_length].
Qed.



(** X21: the listing errors in one case only: a negative limit on
    PostgreSQL, which surfaces as the handler's 500; in every other case
    it returns rows.  No [order_by] value makes it error. *)
Theorem read_all_orders_errors_iff
    (settings : Settings.t) (d : Database.t) (limit : option Z)
    (order_by : option string) (ascending : bool) :
  (Settings.dialect settings = PostgreSQL
   /\ (exists n, limit = Some n /\ n < 0)
   /\ read_all_orders settings d limit order_by ascending
      = Raise (HTTPException 500 "An error occurred while fetching all orders."))
  \/ (~ (Settings.dialect settings = PostgreSQL
         /\ exists n, limit = Some n /\ n < 0)
      /\ exists rows,
           read_all_orders settings d limit order_by ascending = Ok rows).
Proof.
  destruct (getattr_effective_order_by order_by) as [c Hc].
  rewrite (read_all_orders_on_column settings d limit order_by ascending c Hc).
  unfold listing, execute_select. cbn [Select.order_by Select.limit].
  destruct limit as [n|].
  - unfold apply_limit. destruct (Z.ltb_spec n 0) as [Hneg | Hpos].
    + destruct (Settings.dialect settings) eqn:Hdialect.
      * left. split; [reflexivity|]. split; [eauto | reflexivity].
      * right. split; [intros [Habs _]; discriminate | eauto].
    + right. split; [|eauto]. intros [_ [n' [[= <-] Hlt]]]. lia.
  - right. split; [|eauto]. intros [_ [n' [Habs _]]]. discriminate.
Qed.

(** ** Obtaining a token *)

(** X22: [get_access_token] returns a body only when AUTH-SERVICE
    answered 200 with a JSON body, and then it returns that body
    unchanged: no token comes from any other answer. *)
Theorem get_access_token_ok_iff
    (AUTH_SERVICE_BASE_URL : string) (auth_service : AuthService)
    (username password : string) (remember_me : bool) (content : string) :
  let request :=
    {| TokenRequest.url := (AUTH_SERVICE_BASE_URL ++ "/auth/token")%string;
       TokenRequest.username := username;
       TokenRequest.password := password;
       TokenRequest.remember_me := remember_me;
       TokenRequest.content_type := "application/x-www-form-urlencoded" |} in
  get_access_token AUTH_SERVICE_BASE_URL auth_service username password remember_me
  = Ok content
  <-> exists response,
        auth_service request = AuthResponded response
        /\ AuthResponse.status_code response = 200
        /\ (AuthResponse.json response = AuthResponse.JsonOther content
            \/ exists detail,
                 AuthResponse.json response
                 = AuthResponse.JsonObject detail content).
Proof.
  cbn zeta. unfold get_access_token, get_access_token_try. split.
  - destruct (auth_service _) as [response|m]; [|discriminate].
    destruct (Z.eqb_spec (AuthResponse.status_code response) 200) as [Hok | Hnot];
      cbn [negb].
    + destruct (AuthResponse.json response) as [|detail body|body] eqn:Hjson;
        [discriminate | |]; intros [= <-]; exists response; eauto.
    + destruct (AuthResponse.json response); discriminate.
  - intros [response [-> [Hstatus Hjson]]]. rewrite Hstatus. cbn.
    destruct Hjson as [-> | [detail ->]]; reflexivity.
Qed.

(** X23: when AUTH-SERVICE answers with a status other than 200 and a
    JSON object, the caller gets an error with that same status, whose
    detail is "Authentication failed: " followed by the object's detail,
    or by "Unknown error" when it has none. *)
Theorem get_access_token_passes_status_through
    (AUTH_SERVICE_BASE_URL : string) (auth_service : AuthService)
    (username password : string) (remember_me : bool)
    (response : AuthResponse.t) (detail : option string) (body : string) :
  auth_service
    {| TokenRequest.url := (AUTH_SERVICE_BASE_URL ++ "/auth/token")%string;
       TokenRequest.username := username;
       TokenRequest.password := password;
       TokenRequest.remember_me := remember_me;
       TokenRequest.content_type := "application/x-www-form-urlencoded" |}
  = AuthResponded response ->
  AuthResponse.status_code response <> 200 ->
  AuthResponse.json response = AuthResponse.JsonObject detail body ->
  get_access_token AUTH_SERVICE_BASE_URL auth_service username password remember_me
  = Raise (HTTPException (AuthResponse.status_code response)
             ("Authentication failed: "
              ++ match detail with
                 | Some text => text
                 | None => "Unknown error"
                 end)%string).
Proof.
  intros Hresponse Hstatus Hjson.
  unfold get_access_token, get_access_token_try. rewrite Hresponse.
  apply Z.eqb_neq in Hstatus. rewrite Hstatus, Hjson. cbn.
  destruct detail; reflexivity.
Qed.

Lemma get_access_token_passes_status_through_witness :
  get_access_token "http://localhost:8001" Cases.refusing "manager" "wrong" false
  = Raise (HTTPException
             (AuthResponse.status_code
                {| AuthResponse.status_code := 401;
                   AuthResponse.json :=
                     AuthResponse.JsonObject
                       (Some "Incorrect username or password") "body" |})
             ("Authentication failed: "
              ++ match Some "Incorrect username or password" with
                 | Some text => text
                 | None => "Unknown error"
                 end)%string).
Proof.
  apply (get_access_token_passes_status_through "http://localhost:8001"
           Cases.refusing "manager" "wrong" false
           {| AuthResponse.status_code := 401;
              AuthResponse.json :=
                AuthResponse.JsonObject
                  (Some "Incorrect username or password") "body" |}
           (Some "Incorrect username or password") "body").
  - reflexivity.
  - discriminate.
  - reflexivity.
Defined.

Example get_access_token_refused :
  get_access_token "http://localhost:8001" Cases.refusing "manager" "wrong" false
  = Raise (HTTPException 401
             "Authentication failed: Incorrect username or password").
Proof. reflexivity. Qed.

(** ** The settings the service starts with *)

Lemma env_is_test {T : Type} (A B : T) (v : option string) :
  match v with
  | Some "test" => A
  | _ => B
  end
  = if match v with Some s => String.eqb s "test" | None => false end
    then A else B.
Proof.
  destruct v as [s|]; [|reflexivity].
  do 5 (try (destruct s as [|[[] [] [] [] [] [] [] []] s]; try reflexivity)).
Qed.

Lemma missing_false_iff (getenv : Config.Environ) (name : string) :
  Config.missing (getenv name) = false <-> Config.is_set getenv name.
Proof.
  unfold Config.missing, Config.is_set. destruct (getenv name) as [s|].
  - destruct s as [|c s]; cbn.
    + split; [discriminate | intros [s' [[= <-] Hne]]; contradiction].
    + split; [intros _; eexists; split; [reflexivity | discriminate] | reflexivity].
  - split; [discriminate | intros [s' [Habs _]]; discriminate].
Qed.

Lemma service_urls_defined_iff (getenv : Config.Environ) jwt pg :
  (exists fields, Config.service_urls getenv jwt pg = Config.ClassDefined fields)
  <-> Config.is_set getenv "AUTH_SERVICE_BASE_URL"
      /\ Config.is_set getenv "INVENTORY_SERVICE_BASE_URL".
Proof.
  rewrite <- !missing_false_iff. unfold Config.service_urls.
  destruct (Config.missing (getenv "AUTH_SERVICE_BASE_URL"));
    destruct (Config.missing (getenv "INVENTORY_SERVICE_BASE_URL"));
    split; try (intros [fields H]; discriminate); try (intros [H1 H2]; discriminate);
    eauto.
Qed.

(** X24: the class body of [Settings] raises nothing exactly when
    JWT_SECRET_KEY, AUTH_SERVICE_BASE_URL and INVENTORY_SERVICE_BASE_URL
    are set and not empty and, unless ENV is "test", so are
    POSTGRES_USER, POSTGRES_PASSWORD, POSTGRES_DB and POSTGRES_HOST,
    with POSTGRES_PORT unset (5432 is used) or an integer other than 0. *)
Theorem class_body_defined_iff (py_int : string -> option Z)
    (getenv : Config.Environ) :
  (exists fields, Config.class_body py_int getenv = Config.ClassDefined fields)
  <-> Config.is_set getenv "JWT_SECRET_KEY"
      /\ Config.is_set getenv "AUTH_SERVICE_BASE_URL"
      /\ Config.is_set getenv "INVENTORY_SERVICE_BASE_URL"
      /\ (getenv "ENV" = Some "test"
          \/ (Config.is_set getenv "POSTGRES_USER"
              /\ Config.is_set getenv "POSTGRES_PASSWORD"
              /\ Config.is_set getenv "POSTGRES_DB"
              /\ Config.is_set getenv "POSTGRES_HOST"
              /\ (getenv "POSTGRES_PORT" = None
                  \/ exists literal port,
                       getenv "POSTGRES_PORT" = Some literal
                       /\ py_int literal = Some port
                       /\ port <> 0))).
Proof.
  unfold Config.class_body. rewrite env_is_test.
  rewrite <- !missing_false_iff.
  destruct (Config.missing (getenv "JWT_SECRET_KEY")).
  { split; [intros [fields H]; discriminate | intros [H _]; discriminate]. }
  assert (Htest : (match getenv "ENV" with
                   | Some s => String.eqb s "test"
                   | None => false
                   end) = true <-> getenv "ENV" = Some "test").
  { destruct (getenv "ENV") as [env|]; [|split; discriminate].
    rewrite String.eqb_eq. split; [now intros -> | now intros [= ->]]. }
  destruct (match getenv "ENV" with
            | Some s => String.eqb s "test"
            | None => false
            end).
  - rewrite service_urls_defined_iff, <- !missing_false_iff.
    assert (getenv "ENV" = Some "test") by now apply Htest. tauto.
  - assert (Hnot : getenv "ENV" <> Some "test").
    { intros H. apply Htest in H. discriminate. }
    clear Htest.
    destruct (getenv "POSTGRES_PORT") as [literal|];
      [destruct (py_int literal) as [port|] eqn:Hint;
       [destruct (Z.eqb_spec port 0) as [Hzero | Hnonzero]|]|];
      destruct (Config.missing (getenv "POSTGRES_USER"));
      destruct (Config.missing (getenv "POSTGRES_DB"));
      destruct (Config.missing (getenv "POSTGRES_HOST"));
      destruct (Config.missing (getenv "POSTGRES_PASSWORD"));
      try rewrite service_urls_defined_iff; rewrite <- ?missing_false_iff;
      (split;
       [ try (intros [fields H]; discriminate);
         intros [Hauth Hinv]; repeat split; try assumption;
         right; repeat split; try reflexivity;
         first [ now left | right; eauto ]
       | intros [_ [Hauth [Hinv [Habs | [Hu [Hp [Hd [Hh Hport]]]]]]]];
         [ contradiction | ];
         try discriminate;
         try (now split);
         destruct Hport as [Habs | [literal' [port' [Hlit [Hint' Hne]]]]];
         try discriminate;
         injection Hlit as <-; congruence ]).
Qed.

(** X25: in the test environment the class body reads no POSTGRES
    variable and parses no port: two environments with ENV "test" that
    differ on the POSTGRES variables only give the same result. *)
Theorem class_body_test_ignores_postgres
    (py_int1 py_int2 : string -> option Z) (env1 env2 : Config.Environ) :
  env1 "ENV" = Some "test" ->
  (forall name, ~ In name Config.postgres_names -> env1 name = env2 name) ->
  Config.class_body py_int1 env1 = Config.class_body py_int2 env2.
Proof.
  intros Htest Hsame.
  assert (Hne : forall name,
             (if in_dec string_dec name Config.postgres_names then true else false)
             = false -> env1 name = env2 name).
  { intros name H. apply Hsame.
    destruct (in_dec string_dec name Config.postgres_names);
      [discriminate | assumption]. }
  unfold Config.class_body, Config.service_urls.
  rewrite <- (Hne "JWT_SECRET_KEY" eq_refl), <- (Hne "ENV" eq_refl),
    <- (Hne "AUTH_SERVICE_BASE_URL" eq_refl),
    <- (Hne "INVENTORY_SERVICE_BASE_URL" eq_refl).
  rewrite Htest. reflexivity.
Qed.

Lemma class_body_test_ignores_postgres_witness :
  Config.class_body (fun _ => None) Config.test_environ
  = Config.class_body (fun _ => Some 5432) Config.test_environ_with_port.
Proof.
  apply (class_body_test_ignores_postgres (fun _ => None) (fun _ => Some 5432)
           Config.test_environ Config.test_environ_with_port).
  - reflexivity.
  - intros name Hnot. unfold Config.test_environ_with_port.
    destruct (String.eqb_spec name "POSTGRES_PORT") as [-> | _]; [|reflexivity].
    exfalso. apply Hnot. cbn. tauto.
Defined.

Example class_body_test_environ :
  Config.class_body (fun _ => None) Config.test_environ
  = Config.ClassDefined
      {| Config.JWT_SECRET_KEY := "secret";
         Config.postgres := None;
         Config.AUTH_SERVICE_BASE_URL := "http://localhost:8001";
         Config.INVENTORY_SERVICE_BASE_URL := "http://localhost:8002" |}.
Proof. reflexivity. Qed.
